(** * Smart_Attendance: the attendance service of [app.py]

    A shallow embedding of the Flask application in [src/app.py] and the
    properties of its request handlers.

    The service keeps two pieces of durable state: the SQLite table
    [attendance] and the directory [attendance_images].  Both are modelled
    explicitly and threaded through the handlers.  The face detector, the
    image decoder, the liveness checker and the base64 decoder are
    collaborators: they appear as parameters that either return a value or
    raise, and the handlers are proved correct for every choice of them. *)

From Stdlib Require Import ZArith NArith Ascii String DecimalString Sorted Permutation.
From Stdlib Require DecimalNat DecimalFacts SpecFloat.
From stdpp Require Import gmap strings list sorting.

Open Scope string_scope.
Open Scope list_scope.

Set Warnings "-register-all".

(** ** Byte strings and text *)

Definition bytes := list Byte.byte.

(** [s.split(sep)] for a one-character separator. *)
Fixpoint split_on (sep : ascii) (s : string) : list string :=
  match s with
  | EmptyString => [EmptyString]
  | String c s' =>
      if Ascii.eqb c sep then EmptyString :: split_on sep s'
      else match split_on sep s' with
           | [] => [String c EmptyString]
           | w :: ws => String c w :: ws
           end
  end.

(** [c in s] for a character [c]. *)
Fixpoint has_char (c : ascii) (s : string) : bool :=
  match s with
  | EmptyString => false
  | String a s' => Ascii.eqb a c || has_char c s'
  end.

(** [s.startswith(p)]. *)
Definition startswith (s p : string) : bool := String.prefix p s.

(** [s.endswith(p)] for a one-character [p]. *)
Fixpoint ends_with_char (c : ascii) (s : string) : bool :=
  match s with
  | EmptyString => false
  | String a EmptyString => Ascii.eqb a c
  | String _ s' => ends_with_char c s'
  end.

(** [s[len(p):]] when [s] starts with [p]. *)
Fixpoint strip_prefix (p s : string) : option string :=
  match p, s with
  | EmptyString, _ => Some s
  | String a p', String b s' => if Ascii.eqb a b then strip_prefix p' s' else None
  | String _ _, EmptyString => None
  end.

Definition slash : ascii := "/"%char.

(** ** posixpath *)

Module posixpath.

(** One iteration of the loop of [normpath].  [new_comps] is kept with its
    last element first, so [append] is a cons and [pop] drops the head. *)
Definition norm_step (initial_slashes : bool) (new_comps : list string)
    (comp : string) : list string :=
  if bool_decide (comp = "") || bool_decide (comp = ".") then new_comps
  else if negb (bool_decide (comp = ".."))
          || (negb initial_slashes && bool_decide (new_comps = []))
          || (match new_comps with
              | last :: _ => bool_decide (last = "..")
              | [] => false
              end)
  then comp :: new_comps
  else match new_comps with
       | _ :: rest => rest
       | [] => new_comps
       end.

Definition norm_comps (initial_slashes : bool) (comps : list string) : list string :=
  rev (fold_left (norm_step initial_slashes) comps []).

(** [posixpath.normpath]. *)
Definition normpath (path : string) : string :=
  if bool_decide (path = "") then "."
  else
    let initial_slashes : nat :=
      if startswith path "/" then
        if startswith path "//" && negb (startswith path "///") then 2 else 1
      else 0 in
    let comps := norm_comps (negb (Nat.eqb initial_slashes 0)) (split_on slash path) in
    let path := String.concat "/" comps in
    let path :=
      match initial_slashes with
      | 0 => path
      | 1 => "/" +:+ path
      | _ => "//" +:+ path
      end in
    if bool_decide (path = "") then "." else path.

(** [posixpath.isabs]. *)
Definition isabs (s : string) : bool := startswith s "/".

(** [posixpath.join] of two parts. *)
Definition join (a b : string) : string :=
  if startswith b "/" then b
  else if bool_decide (a = "") || ends_with_char slash a then a +:+ b
  else a +:+ "/" +:+ b.

End posixpath.

(** ** The file system

    A file is named by its canonical absolute path, the list of directory
    names from the root down to the file name.  Path strings are resolved
    against the working directory component by component; there are no
    symbolic links, so [..] simply drops the last component.  Directories
    are implicit: a file can be created at any path. *)

Definition walk_step (stk : list string) (comp : string) : list string :=
  if bool_decide (comp = "") || bool_decide (comp = ".") then stk
  else if bool_decide (comp = "..") then tail stk
  else comp :: stk.

Definition resolve (cwd : list string) (p : string) : list string :=
  rev (fold_left walk_step (split_on slash p)
         (if startswith p "/" then [] else rev cwd)).

(** [os.path.isfile(p)]. *)
Definition os_path_isfile (cwd : list string) (files : gmap (list string) bytes)
    (p : string) : bool :=
  negb (bool_decide (p = "")) && bool_decide (is_Some (files !! resolve cwd p)).

(** ** werkzeug (the library behind [flask.send_from_directory]) *)

Module werkzeug.

(** [werkzeug.security.safe_join(directory, filename)] on a POSIX host, where
    [_os_alt_seps] is empty. *)
Definition safe_join (directory filename : string) : option string :=
  let directory := if bool_decide (directory = "") then "." else directory in
  let filename :=
    if negb (bool_decide (filename = "")) then posixpath.normpath filename
    else filename in
  if posixpath.isabs filename
     || startswith filename "/"
     || bool_decide (filename = "..")
     || startswith filename "../"
  then None
  else Some (posixpath.join directory filename).

End werkzeug.

(** ** Time and identifiers *)

(** [str(n).zfill(width)], the [%0<width>d] of a non-negative number. *)
Definition zero_pad (width n : nat) : string :=
  let digits := NilZero.string_of_uint (Nat.to_uint n) in
  String.concat "" (replicate (width - String.length digits) "0") +:+ digits.

Record date := mk_date { d_year : nat; d_month : nat; d_day : nat }.

Record datetime := mk_datetime {
  dt_year : nat; dt_month : nat; dt_day : nat;
  dt_hour : nat; dt_minute : nat; dt_second : nat;
  dt_microsecond : nat
}.

(** [date.isoformat()]. *)
Definition date_isoformat (d : date) : string :=
  zero_pad 4 (d_year d) +:+ "-" +:+ zero_pad 2 (d_month d) +:+ "-"
  +:+ zero_pad 2 (d_day d).

(** [datetime.isoformat()] of a naive datetime: the fraction is printed only
    when the microsecond field is not zero. *)
Definition datetime_isoformat (t : datetime) : string :=
  zero_pad 4 (dt_year t) +:+ "-" +:+ zero_pad 2 (dt_month t) +:+ "-"
  +:+ zero_pad 2 (dt_day t) +:+ "T" +:+ zero_pad 2 (dt_hour t) +:+ ":"
  +:+ zero_pad 2 (dt_minute t) +:+ ":" +:+ zero_pad 2 (dt_second t)
  +:+ (if Nat.eqb (dt_microsecond t) 0 then ""
       else "." +:+ zero_pad 6 (dt_microsecond t)).

Definition hex_digit (n : N) : ascii :=
  match String.get (N.to_nat n) "0123456789abcdef" with
  | Some c => c
  | None => "0"%char
  end.

(** The [width] low hexadecimal digits of [u], most significant first. *)
Fixpoint to_hex (width : nat) (u : N) : string :=
  match width with
  | O => ""
  | S w => to_hex w (N.shiftr u 4) +:+ String (hex_digit (N.land u 15)) ""
  end.

(** [uuid.UUID.hex]: ['%032x' % self.int] for a 128-bit value. *)
Definition uuid_hex (u : N) : string := to_hex 32 u.

(** ** The attendance table

    [CREATE TABLE attendance (id TEXT PRIMARY KEY, name TEXT, timestamp TEXT,
    date TEXT, image_path TEXT)].  Rows are kept in insertion order.  The
    [timestamp] column holds what the client sent, which need not be text:
    [None] is SQL [NULL]; every other value is text, the column having [TEXT]
    affinity. *)

Record row := mk_row {
  id : string;
  name : string;
  timestamp : option string;
  date_ : string;
  image_path : string
}.

#[global] Instance row_eq_dec : EqDecision row.
Proof. solve_decision. Defined.

(** What the handlers did to durable state, oldest first.  [RowInserted]
    stands for the committed [INSERT], the rewrite of the database file
    included. *)
Inductive event :=
  | FileWritten (path : string) (content : bytes)
  | RowInserted (r : row).

(** The durable state: the files on disk, the rows of [attendance] and the
    record of the writes made so far. *)
Record world := mk_world {
  files : gmap (list string) bytes;
  table : list row;
  journal : list event
}.

(** [SELECT COUNT( * ) FROM attendance WHERE name=? AND date=?]. *)
Definition select_count (t : list row) (name0 date0 : string) : nat :=
  length (filter (fun r => name r = name0 ∧ date_ r = date0) t).

(** [a <= b] in the order of [ORDER BY]: [NULL] comes before every text, and
    text compares bytewise, as with SQLite's default [BINARY] collation. *)
Definition sql_leb (a b : option string) : bool :=
  match a, b with
  | None, _ => true
  | Some _, None => false
  | Some x, Some y => String.leb x y
  end.


(** Where [r] goes among rows already sorted by [timestamp] descending. *)
Fixpoint insert_desc (r : row) (l : list row) : list row :=
  match l with
  | [] => [r]
  | x :: l' =>
      if sql_leb (timestamp x) (timestamp r) then r :: l
      else x :: insert_desc r l'
  end.

Definition order_by_timestamp_desc (t : list row) : list row :=
  foldr insert_desc [] t.

(** [SELECT name, timestamp, image_path FROM attendance
     ORDER BY timestamp DESC LIMIT 10]. *)
Definition select_recent (t : list row) : list (string * option string * string) :=
  (fun r => (name r, timestamp r, image_path r))
    <$> take 10 (order_by_timestamp_desc t).

(** ** JSON values and HTTP responses *)

(** A JSON value as Python holds it after [json.loads]: a number is an [int]
    of any size or a [float]. *)
Inductive json :=
  | JNull
  | JBool (b : bool)
  | JInt (n : Z)
  | JFloat (f : SpecFloat.spec_float)
  | JStr (s : string)
  | JArr (items : list json)
  | JObj (fields : list (string * json)).

Inductive payload :=
  | Json (j : json)
  | FileContent (content : bytes)
  | ErrorPage.

Record response := mk_response { status : nat; body : payload }.

(** [jsonify(obj), code]. *)
Definition jsonify (j : json) (code : nat) : response :=
  {| status := code; body := Json j |}.

(** The page Flask answers with when a handler raises: the status of the
    [HTTPException] raised, or 500 for any other exception. *)
Definition error_page (code : nat) : response :=
  {| status := code; body := ErrorPage |}.

(** The response to a raised [werkzeug.exceptions.NotFound]. *)
Definition NotFound : response := error_page 404.

(** [d.get(k)] on the [dict] made from a JSON object: of several members
    with the same name the last one counts. *)
Fixpoint dict_get (k : string) (fields : list (string * json)) : option json :=
  match fields with
  | [] => None
  | (k', v) :: rest =>
      match dict_get k rest with
      | Some v' => Some v'
      | None => if bool_decide (k' = k) then Some v else None
      end
  end.

(** [d.get(k)] with Python's [None] for a missing key. *)
Definition py_get (k : string) (fields : list (string * json)) : json :=
  default JNull (dict_get k fields).

(** [bool(v)], the test of [if v] and [if not v]. *)
Definition truthy (v : json) : bool :=
  match v with
  | JNull => false
  | JBool b => b
  | JInt n => negb (Z.eqb n 0)
  | JFloat f => match f with SpecFloat.S754_zero _ => false | _ => true end
  | JStr s => negb (bool_decide (s = ""))
  | JArr items => negb (bool_decide (items = []))
  | JObj fields => negb (bool_decide (fields = []))
  end.

(** [type(v).__name__]. *)
Definition type_name (v : json) : string :=
  match v with
  | JNull => "NoneType"
  | JBool _ => "bool"
  | JInt _ => "int"
  | JFloat _ => "float"
  | JStr _ => "str"
  | JArr _ => "list"
  | JObj _ => "dict"
  end.

(** What [request.get_json()] finds in a request: a content type other than
    [application/json] (it raises [UnsupportedMediaType], 415), a body that
    is not JSON (it raises [BadRequest], 400), or the value parsed. *)
Inductive request :=
  | NotJson
  | Malformed
  | Body (v : json).

(** ** Computations that read and write the world and may raise

    [inl msg] is a raised exception whose [str(e)] is [msg].  Writes made
    before the exception was raised stay in the world. *)

Definition result (A : Type) : Type := (string + A)%type.

Definition io (A : Type) : Type := world -> world * result A.

Definition io_ret {A} (a : A) : io A := fun w => (w, inr a).

Definition io_bind {A B} (m : io A) (k : A -> io B) : io B :=
  fun w =>
    match m w with
    | (w', inr a) => k a w'
    | (w', inl e) => (w', inl e)
    end.

Definition io_lift {A} (r : result A) : io A := fun w => (w, r).

Definition io_get : io world := fun w => (w, inr w).

(** [try: body except Exception as e: handler(str(e))]. *)
Definition try_except {A} (m : io A) (handler : string -> A) : world -> world * A :=
  fun w =>
    match m w with
    | (w', inr a) => (w', a)
    | (w', inl e) => (w', handler e)
    end.

Notation "'let*' x ':=' m 'in' k" := (io_bind m (fun x => k))
  (at level 10, x name, m at level 100, k at level 200).
Notation "'do' m 'then' k" := (io_bind m (fun _ => k))
  (at level 10, m at level 100, k at level 200).

(** ** The service *)

(** The database file holding the [attendance] table. *)
Definition DB_PATH : string := "attendance.db".
(** The image store directory, a relative path. *)
Definition IMAGE_DIR : string := "attendance_images".

(** What the runtime supplies while one request is handled: the UTC clock of
    [datetime.utcnow()], the local date [date.today()] gives when
    [mark_attendance] reads it for the row, the local date it gives when
    [already_marked_today] reads it afterwards (the next day's, if midnight
    passes in between), and the two identifiers drawn by [uuid.uuid4()], in
    the order they are drawn. *)
Record ambient := mk_ambient {
  utcnow : datetime;
  today_row : date;
  today_gate : date;
  uuid4_first : N;
  uuid4_second : N
}.

(** A rectangle returned by [face_recognition.face_locations]. *)
Definition face_location : Type := Z * Z * Z * Z.

(** The collaborators and the deployment of one running service. *)
Record runtime := mk_runtime {
  (** The working directory of the process, which the relative paths given
      to [open] and [sqlite3.connect] start from. *)
  cwd : list string;
  (** [app.root_path], the directory of the application module, which
      [send_from_directory] and [send_file] resolve relative paths against. *)
  root_path : list string;
  (** Decoded images, opaque to the service. *)
  image : Type;
  (** [base64.b64decode] of a [str]. *)
  b64decode : string -> result bytes;
  (** [cv2.imdecode(np.frombuffer(b, np.uint8), cv2.IMREAD_COLOR)] for a
      buffer that is not empty; [None] is the [img is None] outcome. *)
  imdecode : bytes -> result (option image);
  (** The text of the [cv2.error] that [cv2.imdecode] raises for an empty
      buffer. *)
  empty_buffer_error : string;
  (** [cv2.cvtColor(img, cv2.COLOR_BGR2RGB)]. *)
  cvtColor : image -> result image;
  (** [face_recognition.face_locations]. *)
  face_locations : image -> result (list face_location);
  (** [live_detection.is_live_bytes], or [None] when importing the module
      raises [ImportError]. *)
  live_detection : option (bytes -> result bool);
  (** The text SQLite makes of a [float] stored in a [TEXT] column; [None]
      for a NaN, which it stores as [NULL]. *)
  real_as_text : SpecFloat.spec_float -> option string;
  (** The text of the exception [sqlite3] raises for a parameter of a type
      it cannot bind. *)
  bind_error : json -> string;
  (** The bytes of the database file that holds the given rows. *)
  db_image : list row -> bytes
}.

(** [f.write(image_bytes)] on [open(path, "wb")]. *)
Definition write_file (cwd : list string) (path : string) (content : bytes) : io unit :=
  fun w =>
    ({| files := <[resolve cwd path := content]> (files w);
        table := table w;
        journal := journal w ++ [FileWritten path content] |}, inr tt).

Section service.

Variable rt : runtime.

(** The [try: from live_detection import is_live_bytes / except ImportError]
    block at the top of the module. *)
Definition is_live_bytes : bytes -> result bool :=
  match live_detection rt with
  | Some f => f
  | None => fun image_bytes => inr true
  end.

(** [base64.b64decode(v)]: a [str] is decoded; a value that is neither text
    nor bytes raises [TypeError]. *)
Definition py_b64decode (v : json) : result bytes :=
  match v with
  | JStr s => b64decode rt s
  | _ => inl ("argument should be a bytes-like object or ASCII string, not '"
              +:+ type_name v +:+ "'")
  end.

(** [cv2.imdecode] on the array of the bytes: it raises on an empty
    buffer. *)
Definition cv2_imdecode (buf : bytes) : result (option (image rt)) :=
  match buf with
  | [] => inl (empty_buffer_error rt)
  | _ => imdecode rt buf
  end.

Definition has_face (image_bytes : bytes) : result bool :=
  match cv2_imdecode image_bytes with
  | inl e => inl e
  | inr None => inr false
  | inr (Some img) =>
      match cvtColor rt img with
      | inl e => inl e
      | inr rgb =>
          match face_locations rt rgb with
          | inl e => inl e
          | inr faces => inr (0 <? length faces)%nat
          end
      end
  end.

Definition already_marked_today (amb : ambient) (name0 : string) : io bool :=
  let today := date_isoformat (today_gate amb) in
  let* w := io_get in
  let count := select_count (table w) name0 today in
  io_ret (0 <? count)%nat.

(** What [sqlite3] binds for the [timestamp] parameter and the [TEXT] column
    then holds: text as it is, [None] as [NULL], a [bool] or an [int] that
    fits 64 bits as its decimal text, a [float] as SQLite prints it; an
    [int] that does not fit, a [list] and a [dict] make [execute] raise. *)
Definition bind_timestamp (v : json) : result (option string) :=
  match v with
  | JNull => inr None
  | JBool b => inr (Some (if b then "1" else "0"))
  | JInt n =>
      if (- 2 ^ 63 <=? n)%Z && (n <? 2 ^ 63)%Z
      then inr (Some (NilZero.string_of_int (Z.to_int n)))
      else inl "Python int too large to convert to SQLite INTEGER"
  | JFloat f => inr (real_as_text rt f)
  | JStr s => inr (Some s)
  | JArr _ | JObj _ => inl (bind_error rt v)
  end.

(** The [INSERT INTO attendance] of a row whose parameters are bound,
    followed by [commit]: the primary key rejects an [id] that is already in
    the table; otherwise the row is appended and the database file
    rewritten. *)
Definition insert_row (r : row) : io unit :=
  fun w =>
    if bool_decide (id r ∈ id <$> table w)
    then (w, inl "UNIQUE constraint failed: attendance.id")
    else ({| files := <[resolve (cwd rt) DB_PATH := db_image rt (table w ++ [r])]>
                        (files w);
             table := table w ++ [r];
             journal := journal w ++ [RowInserted r] |}, inr tt).

(** [POST /mark_attendance].  The first two lines stand before the [try]:
    what [get_json] raises is answered by Flask with its own error page, and
    so is the [AttributeError] of [data.get] when the body is JSON but not
    an object. *)
Definition mark_attendance (amb : ambient) (req : request)
    : world -> world * response :=
  match req with
  | NotJson => fun w => (w, error_page 415)
  | Malformed => fun w => (w, error_page 400)
  | Body (JObj data) =>
      let image_base64 := py_get "image_base64" data in
      let timestamp :=
        default (JStr (datetime_isoformat (utcnow amb))) (dict_get "timestamp" data) in
      if negb (truthy image_base64) then
        fun w => (w, jsonify (JObj [("ok", JBool false);
                                    ("error", JStr "No image received")]) 400)
      else
      try_except
        (let* image_bytes := io_lift (py_b64decode image_base64) in
         let* face := io_lift (has_face image_bytes) in
         if negb face then
           io_ret (jsonify (JObj [("ok", JBool false);
                                  ("error", JStr "No face detected")]) 403)
         else
         let* live := io_lift (is_live_bytes image_bytes) in
         if negb live then
           io_ret (jsonify (JObj [("ok", JBool false);
                                  ("error", JStr "Spoof detected")]) 403)
         else
         let name := "Unknown Person" in
         let today := date_isoformat (today_row amb) in
         let* marked := already_marked_today amb name in
         if marked then
           io_ret (jsonify (JObj [("ok", JBool false);
                                  ("error", JStr "Attendance already marked for today")]) 409)
         else
         let filename := uuid_hex (uuid4_first amb) +:+ ".jpg" in
         let image_path := posixpath.join IMAGE_DIR filename in
         do write_file (cwd rt) image_path image_bytes then
         let* timestamp_column := io_lift (bind_timestamp timestamp) in
         do insert_row (mk_row (uuid_hex (uuid4_second amb)) name timestamp_column
                               today image_path) then
         io_ret (jsonify (JObj [("ok", JBool true);
                                ("timestamp", timestamp);
                                ("image_path", JStr ("/attendance_images/" +:+ filename));
                                ("name", JStr name)]) 200))
        (fun e => jsonify (JObj [("ok", JBool false); ("error", JStr e)]) 500)
  | Body _ => fun w => (w, error_page 500)
  end.

(** A column value as [jsonify] prints it. *)
Definition sql_json (v : option string) : json :=
  match v with
  | Some s => JStr s
  | None => JNull
  end.

(** [GET /get_recent_attendance]. *)
Definition get_recent_attendance : world -> world * response :=
  try_except
    (let* w := io_get in
     let rows := select_recent (table w) in
     let result :=
       (fun r : string * option string * string =>
          JObj [("person_text", JStr r.1.1);
                ("timestamp", sql_json r.1.2);
                ("image_path", JStr ("/" +:+ r.2))]) <$> rows in
     io_ret (jsonify (JArr result) 200))
    (fun e => jsonify (JObj [("error", JStr e)]) 500).

(** [flask.send_from_directory(directory, path)]: join safely, look the
    result up from [app.root_path], answer [NotFound] unless it names a
    regular file, else send the file. *)
Definition send_from_directory (directory path : string) : world -> world * response :=
  fun w =>
    match werkzeug.safe_join directory path with
    | None => (w, NotFound)
    | Some path_str =>
        if negb (os_path_isfile (root_path rt) (files w) path_str) then (w, NotFound)
        else match files w !! resolve (root_path rt) path_str with
             | Some content => (w, {| status := 200; body := FileContent content |})
             | None => (w, NotFound)
             end
    end.

(** [GET /attendance_images/<path:filename>]. *)
Definition serve_image (filename : string) : world -> world * response :=
  send_from_directory IMAGE_DIR filename.

End service.

(** The URL rule [/attendance_images/<path:filename>]: the [path] converter
    takes the rest of the URL when it is not empty and does not begin with a
    slash. *)
Definition match_image_route (url : string) : option string :=
  match strip_prefix "/attendance_images/" url with
  | Some filename =>
      if bool_decide (filename = "") || startswith filename "/" then None
      else Some filename
  | None => None
  end.

(** [GET url] for the URLs of stored images. *)
Definition get_image_url (rt : runtime) (url : string) (w : world)
    : option (world * response) :=
  match match_image_route url with
  | Some filename => Some (serve_image rt filename w)
  | None => None
  end.

(** The requests the service answers, and the service run over a sequence of
    them, one after the other. *)
Inductive call :=
  | Submit (amb : ambient) (req : request)
  | ListRecent
  | Fetch (filename : string).

Definition handle (rt : runtime) (c : call) : world -> world * response :=
  match c with
  | Submit amb req => mark_attendance rt amb req
  | ListRecent => get_recent_attendance
  | Fetch filename => serve_image rt filename
  end.

Definition run (rt : runtime) (calls : list call) (w : world) : world :=
  foldl (fun w c => (handle rt c w).1) w calls.

(** ** A small deployment to run the handlers on

    The service is started from its own directory.  Base64 text with a [!]
    is rejected and padding [=] carries no bytes; images are their own
    bytes; a payload starting with [x] does not decode, one containing [F]
    shows a face, and one containing [L] is live. *)

Definition byte_in (c : Byte.byte) (b : bytes) : bool :=
  existsb (Byte.eqb c) b.

Definition demo_bytes (s : string) : bytes :=
  List.filter (fun c => negb (Byte.eqb c Byte.x3d)) (list_byte_of_string s).

Definition demo_runtime : runtime := {|
  cwd := ["srv"; "app"];
  root_path := ["srv"; "app"];
  image := bytes;
  b64decode := fun s =>
    if has_char "!" s then inl "Incorrect padding" else inr (demo_bytes s);
  imdecode := fun b =>
    match b with
    | Byte.x78 :: _ => inr None
    | _ => inr (Some b)
    end;
  empty_buffer_error := "(-215:Assertion failed) !buf.empty() in function 'imdecode_'";
  cvtColor := fun img => inr img;
  face_locations := fun img =>
    inr (if byte_in Byte.x46 img then [(0, 10, 10, 0)%Z] else []);
  live_detection := Some (fun b => inr (byte_in Byte.x4c b));
  real_as_text := fun f =>
    match f with
    | SpecFloat.S754_nan => None
    | SpecFloat.S754_zero _ => Some "0.0"
    | SpecFloat.S754_infinity false => Some "Inf"
    | SpecFloat.S754_infinity true => Some "-Inf"
    | SpecFloat.S754_finite _ _ _ => Some "1.0"
    end;
  bind_error := fun v =>
    "Error binding parameter 3: type '" +:+ type_name v +:+ "' is not supported";
  db_image := fun t => replicate (length t) Byte.x52
|}.

(** The same deployment without the [live_detection] module. *)
Definition demo_runtime_no_liveness : runtime := {|
  cwd := cwd demo_runtime;
  root_path := root_path demo_runtime;
  image := image demo_runtime;
  b64decode := b64decode demo_runtime;
  imdecode := imdecode demo_runtime;
  empty_buffer_error := empty_buffer_error demo_runtime;
  cvtColor := cvtColor demo_runtime;
  face_locations := face_locations demo_runtime;
  live_detection := None;
  real_as_text := real_as_text demo_runtime;
  bind_error := bind_error demo_runtime;
  db_image := db_image demo_runtime
|}.

(** The same application started from the directory above its own, as with
    [python app/app.py] in [/srv]. *)
Definition demo_runtime_detached : runtime := {|
  cwd := ["srv"];
  root_path := ["srv"; "app"];
  image := image demo_runtime;
  b64decode := b64decode demo_runtime;
  imdecode := imdecode demo_runtime;
  empty_buffer_error := empty_buffer_error demo_runtime;
  cvtColor := cvtColor demo_runtime;
  face_locations := face_locations demo_runtime;
  live_detection := live_detection demo_runtime;
  real_as_text := real_as_text demo_runtime;
  bind_error := bind_error demo_runtime;
  db_image := db_image demo_runtime
|}.

Definition demo_ambient : ambient := {|
  utcnow := mk_datetime 2024 1 1 4 30 0 0;
  today_row := mk_date 2024 1 1;
  today_gate := mk_date 2024 1 1;
  uuid4_first := 0xa1;
  uuid4_second := 0xb2
|}.

Definition demo_ambient_later : ambient := {|
  utcnow := mk_datetime 2024 1 1 9 15 2 250;
  today_row := mk_date 2024 1 1;
  today_gate := mk_date 2024 1 1;
  uuid4_first := 0xc3;
  uuid4_second := 0xd4
|}.

(** A request handled while the first day ends: the handler reads the date
    for the row before midnight, [already_marked_today] reads it after. *)
Definition demo_ambient_midnight : ambient := {|
  utcnow := mk_datetime 2024 1 1 18 29 59 2500;
  today_row := mk_date 2024 1 1;
  today_gate := mk_date 2024 1 2;
  uuid4_first := 0xc3;
  uuid4_second := 0xd4
|}.

Definition empty_world : world :=
  {| files := ∅; table := []; journal := [] |}.

Definition demo_request (image_base64 : string) : request :=
  Body (JObj [("image_base64", JStr image_base64);
              ("timestamp", JStr "2024-01-01T10:00:00")]).

(** The same request with another value in its [timestamp] field. *)
Definition demo_request_stamped (image_base64 : string) (timestamp0 : json) : request :=
  Body (JObj [("image_base64", JStr image_base64); ("timestamp", timestamp0)]).

(** A world in which the identifier the next submission draws for its row
    is already taken by a row of the day before. *)
Definition demo_world_taken : world :=
  {| files := ∅;
     table := [mk_row (uuid_hex 0xb2) "Unknown Person" (Some "2023-12-31T08:00:00")
                 "2023-12-31" "attendance_images/old.jpg"];
     journal := [] |}.

(** The day after [demo_ambient], with fresh identifiers. *)
Definition demo_ambient_next_day : ambient := {|
  utcnow := mk_datetime 2024 1 2 4 30 0 0;
  today_row := mk_date 2024 1 2;
  today_gate := mk_date 2024 1 2;
  uuid4_first := 0xe5;
  uuid4_second := 0xf6
|}.

(** A world with one stored image and, next to the image store, the database
    file and the dashboard page of the application. *)
Definition demo_world_files : world :=
  {| files := {[ ["srv"; "app"; "attendance_images"; "a.jpg"] := [Byte.x01; Byte.x02];
                 ["srv"; "app"; "attendance.db"] := [Byte.x53];
                 ["srv"; "app"; "AI_Attendance_Dashboard.html"] := [Byte.x3c] ]};
     table := [];
     journal := [] |}.

(** ** Vocabulary of the properties *)

(** The member [k] of the request body, when the body is an object that has
    one. *)
Definition request_field (k : string) (req : request) : option json :=
  match req with
  | Body (JObj data) => dict_get k data
  | _ => None
  end.

(** The timestamp of a submission: the value of the [timestamp] member when
    there is one, else the ISO text of the server's UTC clock. *)
Definition timestamp_of (amb : ambient) (req : request) : json :=
  default (JStr (datetime_isoformat (utcnow amb))) (request_field "timestamp" req).

(** The request body is an object whose [image_base64] member is a
    non-empty string that decodes to the bytes [b]. *)
Definition submitted_bytes (rt : runtime) (req : request) (b : bytes) : Prop :=
  ∃ s, request_field "image_base64" req = Some (JStr s) ∧ s ≠ ""
       ∧ b64decode rt s = inr b.

(** [b] decodes as an image in which the detector finds at least one face. *)
Definition detectable_face (rt : runtime) (b : bytes) : Prop :=
  ∃ img rgb faces,
    cv2_imdecode rt b = inr (Some img) ∧ cvtColor rt img = inr rgb ∧
    face_locations rt rgb = inr faces ∧ faces ≠ [].


(** [b] cannot be decoded as an image, whether the decoder returns [None]
    or raises. *)
Definition not_an_image (rt : runtime) (b : bytes) : Prop :=
  ∀ img, cv2_imdecode rt b ≠ inr (Some img).


(** The table holds a record under the placeholder name for the date [d]. *)
Definition marked_on (t : list row) (d : string) : Prop :=
  ∃ r, r ∈ t ∧ name r = "Unknown Person" ∧ date_ r = d.

Definition failure (code : nat) (msg : string) : response :=
  jsonify (JObj [("ok", JBool false); ("error", JStr msg)]) code.

Definition success (timestamp0 : json) (filename : string) : response :=
  jsonify (JObj [("ok", JBool true);
                 ("timestamp", timestamp0);
                 ("image_path", JStr ("/attendance_images/" +:+ filename));
                 ("name", JStr "Unknown Person")]) 200.

(** [a] may stand before [b] in a listing that is newest first. *)
Definition not_older (a b : row) : Prop :=
  sql_leb (timestamp b) (timestamp a) = true.

(** Timestamps that never increase from one entry to a later one. *)
Definition non_increasing (ts : list (option string)) : Prop :=
  StronglySorted (fun a b => sql_leb b a = true) ts.

(** The object [get_recent_attendance] returns for one row. *)
Definition recent_item (r : row) : json :=
  JObj [("person_text", JStr (name r));
        ("timestamp", sql_json (timestamp r));
        ("image_path", JStr ("/" +:+ image_path r))].

(** The canonical path of the image store directory [serve_image] serves
    from: [IMAGE_DIR] under the application root. *)
Definition store_dir (rt : runtime) : list string := root_path rt ++ [IMAGE_DIR].

(** The canonical path of the directory [mark_attendance] writes images to:
    [IMAGE_DIR] under the working directory. *)
Definition upload_dir (rt : runtime) : list string := cwd rt ++ [IMAGE_DIR].

(** The canonical path of the database file. *)
Definition db_file (rt : runtime) : list string := cwd rt ++ [DB_PATH].

(** [filename], read as a path inside the image store directory, leads to a
    file that exists at or below that directory. *)
Definition names_stored_file (rt : runtime) (w : world) (filename : string) : Prop :=
  let key := resolve (store_dir rt) filename in
  store_dir rt `prefix_of` key ∧ is_Some (files w !! key).

(** The first member named [k] of a JSON object. *)
Fixpoint json_field (k : string) (fields : list (string * json)) : option json :=
  match fields with
  | [] => None
  | (k', v) :: rest => if bool_decide (k' = k) then Some v else json_field k rest
  end.

(** The [image_path] a JSON response carries. *)
Definition response_image_url (r : response) : option string :=
  match body r with
  | Json (JObj fields) =>
      match json_field "image_path" fields with
      | Some (JStr url) => Some url
      | _ => None
      end
  | _ => None
  end.

Definition file_response (content : bytes) : response :=
  {| status := 200; body := FileContent content |}.

(** Every row of the table names an image file that exists. *)
Definition rows_have_files (rt : runtime) (w : world) : Prop :=
  ∀ r, r ∈ table w -> is_Some (files w !! resolve (cwd rt) (image_path r)).


(** The file name drawn for a submission, and the row it records when its
    timestamp is bound as [stored]. *)
Definition new_filename (amb : ambient) : string :=
  uuid_hex (uuid4_first amb) +:+ ".jpg".

Definition new_row (amb : ambient) (stored : option string) : row :=
  {| id := uuid_hex (uuid4_second amb);
     name := "Unknown Person";
     timestamp := stored;
     date_ := date_isoformat (today_row amb);
     image_path := "attendance_images/" +:+ new_filename amb |}.

(** [all(p(c) for c in s)]. *)
Fixpoint all_chars (p : ascii -> bool) (s : string) : bool :=
  match s with
  | EmptyString => true
  | String c s' => p c && all_chars p s'
  end.

Definition is_hex_digit (c : ascii) : bool :=
  has_char c "0123456789abcdef".

(** A single path component that names an entry of a directory. *)
Definition plain_name (c : string) : Prop :=
  c ≠ "" ∧ c ≠ "." ∧ c ≠ ".." ∧ has_char slash c = false.

(** The world after the image file of a submission was written, and after
    its row was inserted as well. *)
Definition written (rt : runtime) (amb : ambient) (b : bytes) (w : world) : world :=
  {| files := <[upload_dir rt ++ [new_filename amb] := b]> (files w);
     table := table w;
     journal := journal w ++ [FileWritten ("attendance_images/" +:+ new_filename amb) b] |}.

Definition recorded (rt : runtime) (amb : ambient) (stored : option string)
    (b : bytes) (w : world) : world :=
  {| files := <[db_file rt := db_image rt (table w ++ [new_row amb stored])]>
                (<[upload_dir rt ++ [new_filename amb] := b]> (files w));
     table := table w ++ [new_row amb stored];
     journal := journal w ++ [FileWritten ("attendance_images/" +:+ new_filename amb) b;
                              RowInserted (new_row amb stored)] |}.

(** The ways one call of [mark_attendance] can end: the world it leaves and
    the response it gives, from the world [w] it started in. *)
Inductive submit_outcome (rt : runtime) (amb : ambient) (req : request)
    (w : world) : world -> response -> Prop :=
  | submit_not_json :
      req = NotJson ->
      submit_outcome rt amb req w w (error_page 415)
  | submit_malformed :
      req = Malformed ->
      submit_outcome rt amb req w w (error_page 400)
  | submit_not_object v :
      req = Body v -> (∀ data, v ≠ JObj data) ->
      submit_outcome rt amb req w w (error_page 500)
  | submit_no_image data :
      req = Body (JObj data) -> truthy (py_get "image_base64" data) = false ->
      submit_outcome rt amb req w w (failure 400 "No image received")
  | submit_bad_base64 data e :
      req = Body (JObj data) -> truthy (py_get "image_base64" data) = true ->
      py_b64decode rt (py_get "image_base64" data) = inl e ->
      submit_outcome rt amb req w w (failure 500 e)
  | submit_detector_raised b e :
      submitted_bytes rt req b -> has_face rt b = inl e ->
      submit_outcome rt amb req w w (failure 500 e)
  | submit_no_face b :
      submitted_bytes rt req b -> has_face rt b = inr false ->
      submit_outcome rt amb req w w (failure 403 "No face detected")
  | submit_liveness_raised b e :
      submitted_bytes rt req b -> has_face rt b = inr true ->
      is_live_bytes rt b = inl e ->
      submit_outcome rt amb req w w (failure 500 e)
  | submit_spoof b :
      submitted_bytes rt req b -> has_face rt b = inr true ->
      is_live_bytes rt b = inr false ->
      submit_outcome rt amb req w w (failure 403 "Spoof detected")
  | submit_duplicate b :
      submitted_bytes rt req b -> has_face rt b = inr true ->
      is_live_bytes rt b = inr true ->
      marked_on (table w) (date_isoformat (today_gate amb)) ->
      submit_outcome rt amb req w w (failure 409 "Attendance already marked for today")
  | submit_bind_rejected b e :
      submitted_bytes rt req b -> has_face rt b = inr true ->
      is_live_bytes rt b = inr true ->
      ¬ marked_on (table w) (date_isoformat (today_gate amb)) ->
      bind_timestamp rt (timestamp_of amb req) = inl e ->
      submit_outcome rt amb req w (written rt amb b w) (failure 500 e)
  | submit_insert_rejected b stored :
      submitted_bytes rt req b -> has_face rt b = inr true ->
      is_live_bytes rt b = inr true ->
      ¬ marked_on (table w) (date_isoformat (today_gate amb)) ->
      bind_timestamp rt (timestamp_of amb req) = inr stored ->
      uuid_hex (uuid4_second amb) ∈ id <$> table w ->
      submit_outcome rt amb req w (written rt amb b w)
        (failure 500 "UNIQUE constraint failed: attendance.id")
  | submit_recorded b stored :
      submitted_bytes rt req b -> has_face rt b = inr true ->
      is_live_bytes rt b = inr true ->
      ¬ marked_on (table w) (date_isoformat (today_gate amb)) ->
      bind_timestamp rt (timestamp_of amb req) = inr stored ->
      uuid_hex (uuid4_second amb) ∉ id <$> table w ->
      submit_outcome rt amb req w (recorded rt amb stored b w)
        (success (timestamp_of amb req) (new_filename amb)).

(** ** The rest of the module *)

(** The dashboard page served at [/]. *)
Definition DASHBOARD : string := "AI_Attendance_Dashboard.html".

(** [GET /]: [send_file("AI_Attendance_Dashboard.html")], the file being
    looked up from the application root.  [None] stands for the
    [FileNotFoundError] that [send_file] raises when the file is missing. *)
Definition home (rt : runtime) : world -> world * option response :=
  fun w => (w, file_response <$> files w !! resolve (root_path rt) DASHBOARD).

(** [already_marked_today()] called with its default [name="Detected"]. *)
Definition already_marked_today_default (amb : ambient) : io bool :=
  already_marked_today amb "Detected".

(** A collaborator raises with message [e] while the submission is checked:
    the base64 decoder, the face detection or the liveness checker. *)
Definition collaborator_raises (rt : runtime) (req : request) (e : string) : Prop :=
  (∃ s, request_field "image_base64" req = Some (JStr s) ∧ s ≠ ""
        ∧ b64decode rt s = inl e)
  ∨ (∃ b, submitted_bytes rt req b ∧ has_face rt b = inl e)
  ∨ (∃ b, submitted_bytes rt req b ∧ has_face rt b = inr true ∧
          is_live_bytes rt b = inl e).

(** No two rows share an [id]. *)
Definition unique_ids (w : world) : Prop := NoDup (id <$> table w).



Definition is_dec_digit (c : ascii) : bool := has_char c "0123456789".

(** The character of a decimal digit. *)
Definition digit_char (k : nat) : ascii :=
  match String.get k "0123456789" with Some c => c | None => "0"%char end.

(** Lexicographic combination of two comparisons. *)
Definition lex_then (c1 c2 : comparison) : comparison :=
  match c1 with Eq => c2 | _ => c1 end.

(** A datetime whose fields fit the widths [isoformat] prints them in, as
    those of every [datetime] of Python do. *)
Definition printable (t : datetime) : Prop :=
  (dt_year t < 10 ^ 4 ∧ dt_month t < 10 ^ 2 ∧ dt_day t < 10 ^ 2 ∧
   dt_hour t < 10 ^ 2 ∧ dt_minute t < 10 ^ 2 ∧ dt_second t < 10 ^ 2 ∧
   dt_microsecond t < 10 ^ 6)%nat.

(** Chronological comparison of two datetimes, field by field. *)
Definition datetime_compare (t1 t2 : datetime) : comparison :=
  lex_then (Nat.compare (dt_year t1) (dt_year t2))
 (lex_then (Nat.compare (dt_month t1) (dt_month t2))
 (lex_then (Nat.compare (dt_day t1) (dt_day t2))
 (lex_then (Nat.compare (dt_hour t1) (dt_hour t2))
 (lex_then (Nat.compare (dt_minute t1) (dt_minute t2))
 (lex_then (Nat.compare (dt_second t1) (dt_second t2))
           (Nat.compare (dt_microsecond t1) (dt_microsecond t2))))))).


(** ** The model on concrete inputs *)

Example split_on_ex1 : split_on slash "a//b/" = ["a"; ""; "b"; ""].
Proof. reflexivity. Qed.

Example split_on_ex2 : split_on slash "" = [""].
Proof. reflexivity. Qed.

Example normpath_ex1 : posixpath.normpath "a/./b/../../c.jpg" = "c.jpg".
Proof. reflexivity. Qed.

Example normpath_ex2 : posixpath.normpath "a/../../etc/passwd" = "../etc/passwd".
Proof. reflexivity. Qed.

Example normpath_ex3 : posixpath.normpath "//a/../../b/" = "//b".
Proof. reflexivity. Qed.

Example normpath_ex4 : posixpath.normpath "./" = ".".
Proof. reflexivity. Qed.

Example join_ex1 : posixpath.join "attendance_images" "x.jpg" = "attendance_images/x.jpg".
Proof. reflexivity. Qed.

Example resolve_ex1 :
  resolve ["srv"; "app"] "attendance_images/../../x" = ["srv"; "x"].
Proof. reflexivity. Qed.

Example resolve_ex2 : resolve ["srv"; "app"] "/etc/passwd" = ["etc"; "passwd"].
Proof. reflexivity. Qed.

Example safe_join_ex1 :
  werkzeug.safe_join "attendance_images" "a/../b.jpg" = Some "attendance_images/b.jpg".
Proof. reflexivity. Qed.

Example safe_join_ex2 :
  werkzeug.safe_join "attendance_images" "a/../../app.py" = None.
Proof. reflexivity. Qed.

Example safe_join_ex3 :
  werkzeug.safe_join "attendance_images" "/etc/passwd" = None.
Proof. reflexivity. Qed.

Example date_isoformat_ex : date_isoformat (mk_date 2024 1 1) = "2024-01-01".
Proof. reflexivity. Qed.

Example datetime_isoformat_ex1 :
  datetime_isoformat (mk_datetime 2024 1 1 10 0 0 0) = "2024-01-01T10:00:00".
Proof. reflexivity. Qed.

Example datetime_isoformat_ex2 :
  datetime_isoformat (mk_datetime 2024 12 31 23 59 59 1500)
  = "2024-12-31T23:59:59.001500".
Proof. reflexivity. Qed.

Example uuid_hex_ex :
  uuid_hex 0xdeadbeef = "000000000000000000000000deadbeef".
Proof. reflexivity. Qed.

Example dict_get_ex :
  dict_get "a" [("a", JInt 1); ("b", JNull); ("a", JInt 2)] = Some (JInt 2).
Proof. reflexivity. Qed.

Example bind_timestamp_ex1 : bind_timestamp demo_runtime (JInt (-15)) = inr (Some "-15").
Proof. reflexivity. Qed.

Example bind_timestamp_ex2 :
  bind_timestamp demo_runtime (JInt (2 ^ 63))
  = inl "Python int too large to convert to SQLite INTEGER".
Proof. reflexivity. Qed.

Example demo_first_submission :
  (mark_attendance demo_runtime demo_ambient (demo_request "FL") empty_world).2
  = jsonify (JObj [("ok", JBool true);
                   ("timestamp", JStr "2024-01-01T10:00:00");
                   ("image_path",
                    JStr "/attendance_images/000000000000000000000000000000a1.jpg");
                   ("name", JStr "Unknown Person")]) 200.
Proof. vm_compute. reflexivity. Qed.

Example demo_second_submission :
  let w1 := (mark_attendance demo_runtime demo_ambient (demo_request "FL") empty_world).1 in
  (mark_attendance demo_runtime demo_ambient_later (demo_request "LF") w1).2
  = jsonify (JObj [("ok", JBool false);
                   ("error", JStr "Attendance already marked for today")]) 409.
Proof. vm_compute. reflexivity. Qed.

Example demo_bad_base64 :
  mark_attendance demo_runtime demo_ambient (demo_request "F!L") empty_world
  = (empty_world,
     jsonify (JObj [("ok", JBool false); ("error", JStr "Incorrect padding")]) 500).
Proof. vm_compute. reflexivity. Qed.

Example demo_missing_timestamp :
  (mark_attendance demo_runtime demo_ambient
     (Body (JObj [("image_base64", JStr "FL")])) empty_world).2
  = jsonify (JObj [("ok", JBool true);
                   ("timestamp", JStr "2024-01-01T04:30:00");
                   ("image_path",
                    JStr "/attendance_images/000000000000000000000000000000a1.jpg");
                   ("name", JStr "Unknown Person")]) 200.
Proof. vm_compute. reflexivity. Qed.

(** A request that is not JSON, one whose body does not parse and one whose
    body is an array are answered by Flask's error pages. *)
Example demo_not_json :
  mark_attendance demo_runtime demo_ambient NotJson empty_world
  = (empty_world, error_page 415).
Proof. reflexivity. Qed.

Example demo_malformed :
  mark_attendance demo_runtime demo_ambient Malformed empty_world
  = (empty_world, error_page 400).
Proof. reflexivity. Qed.

Example demo_not_object :
  mark_attendance demo_runtime demo_ambient (Body (JArr [JStr "FL"])) empty_world
  = (empty_world, error_page 500).
Proof. reflexivity. Qed.

(** An [image_base64] of [0] counts as missing; one of [7] reaches the
    decoder, which raises. *)
Example demo_image_zero :
  mark_attendance demo_runtime demo_ambient
    (Body (JObj [("image_base64", JInt 0)])) empty_world
  = (empty_world,
     jsonify (JObj [("ok", JBool false); ("error", JStr "No image received")]) 400).
Proof. vm_compute. reflexivity. Qed.

Example demo_image_number :
  mark_attendance demo_runtime demo_ambient
    (Body (JObj [("image_base64", JInt 7)])) empty_world
  = (empty_world,
     jsonify (JObj [("ok", JBool false);
                    ("error",
                     JStr "argument should be a bytes-like object or ASCII string, not 'int'")])
             500).
Proof. vm_compute. reflexivity. Qed.

(** A payload of padding alone decodes to no bytes, on which the decoder
    raises. *)
Example demo_empty_buffer :
  mark_attendance demo_runtime demo_ambient (demo_request "====") empty_world
  = (empty_world,
     jsonify (JObj [("ok", JBool false);
                    ("error",
                     JStr "(-215:Assertion failed) !buf.empty() in function 'imdecode_'")])
             500).
Proof. vm_compute. reflexivity. Qed.

(** A numeric timestamp is echoed as the number and stored, and then listed,
    as text. *)
Example demo_numeric_timestamp :
  let out := mark_attendance demo_runtime demo_ambient
               (demo_request_stamped "FL" (JInt 1704103200)) empty_world in
  out.2 = jsonify (JObj [("ok", JBool true);
                         ("timestamp", JInt 1704103200);
                         ("image_path",
                          JStr "/attendance_images/000000000000000000000000000000a1.jpg");
                         ("name", JStr "Unknown Person")]) 200
  ∧ timestamp <$> table out.1 = [Some "1704103200"]
  ∧ (get_recent_attendance out.1).2
    = jsonify (JArr [JObj [("person_text", JStr "Unknown Person");
                           ("timestamp", JStr "1704103200");
                           ("image_path",
                            JStr "/attendance_images/000000000000000000000000000000a1.jpg")]])
              200.
Proof. vm_compute. repeat split; reflexivity. Qed.

(** A timestamp that cannot be bound makes the [INSERT] raise after the
    image was written. *)
Example demo_unbindable_timestamp :
  let out := mark_attendance demo_runtime demo_ambient
               (demo_request_stamped "FL" (JArr [])) empty_world in
  out.2 = jsonify (JObj [("ok", JBool false);
                         ("error",
                          JStr "Error binding parameter 3: type 'list' is not supported")])
                  500
  ∧ table out.1 = []
  ∧ files out.1 !! ["srv"; "app"; "attendance_images";
                    "000000000000000000000000000000a1.jpg"]
    = Some (list_byte_of_string "FL").
Proof. vm_compute. repeat split; reflexivity. Qed.

Example demo_insert_rejected :
  let out := mark_attendance demo_runtime demo_ambient (demo_request "FL")
               demo_world_taken in
  out.2 = jsonify (JObj [("ok", JBool false);
                         ("error", JStr "UNIQUE constraint failed: attendance.id")]) 500
  ∧ table out.1 = table demo_world_taken
  ∧ journal out.1
    = [FileWritten "attendance_images/000000000000000000000000000000a1.jpg"
         (list_byte_of_string "FL")]
  ∧ files out.1 !! ["srv"; "app"; "attendance_images";
                    "000000000000000000000000000000a1.jpg"]
    = Some (list_byte_of_string "FL").
Proof. vm_compute. repeat split; reflexivity. Qed.

(** A successful submission rewrites the database file next to the image
    it stores. *)
Example demo_database_rewritten :
  let w1 := (mark_attendance demo_runtime demo_ambient (demo_request "FL")
               demo_world_files).1 in
  files demo_world_files !! ["srv"; "app"; "attendance.db"] = Some [Byte.x53]
  ∧ files w1 !! ["srv"; "app"; "attendance.db"] = Some [Byte.x52].
Proof. vm_compute. split; reflexivity. Qed.

(** A submission handled across midnight passes the gate of the new day and
    adds a second row for the day that ended. *)
Example demo_across_midnight :
  let w1 := (mark_attendance demo_runtime demo_ambient (demo_request "FL") empty_world).1 in
  let out := mark_attendance demo_runtime demo_ambient_midnight (demo_request "LF") w1 in
  status out.2 = 200
  ∧ (fun r => (name r, date_ r)) <$> table out.1
    = [("Unknown Person", "2024-01-01"); ("Unknown Person", "2024-01-01")].
Proof. vm_compute. split; reflexivity. Qed.

(** Started from another directory than its own, the service stores an
    image where [serve_image] does not look for it. *)
Example demo_detached :
  let out := mark_attendance demo_runtime_detached demo_ambient (demo_request "FL")
               empty_world in
  status out.2 = 200
  ∧ files out.1 !! ["srv"; "attendance_images"; "000000000000000000000000000000a1.jpg"]
    = Some (list_byte_of_string "FL")
  ∧ (serve_image demo_runtime_detached "000000000000000000000000000000a1.jpg" out.1).2
    = NotFound.
Proof. vm_compute. repeat split; reflexivity. Qed.

Example demo_serve_stored :
  serve_image demo_runtime "a.jpg" demo_world_files
  = (demo_world_files, {| status := 200; body := FileContent [Byte.x01; Byte.x02] |}).
Proof. vm_compute. reflexivity. Qed.

Example demo_serve_normalised :
  (serve_image demo_runtime "tmp/../a.jpg" demo_world_files).2
  = {| status := 200; body := FileContent [Byte.x01; Byte.x02] |}.
Proof. vm_compute. reflexivity. Qed.

Example demo_serve_traversal :
  (serve_image demo_runtime "../attendance.db" demo_world_files).2 = NotFound.
Proof. vm_compute. reflexivity. Qed.

Example demo_serve_absolute :
  (serve_image demo_runtime "/srv/app/attendance.db" demo_world_files).2 = NotFound.
Proof. vm_compute. reflexivity. Qed.

Example demo_serve_missing :
  (serve_image demo_runtime "b.jpg" demo_world_files).2 = NotFound.
Proof. vm_compute. reflexivity. Qed.

Example demo_recent :
  (get_recent_attendance
     {| files := ∅;
        table := [mk_row "1" "Unknown Person" (Some "2024-01-01T10:00:00") "2024-01-01"
                    "attendance_images/x.jpg";
                  mk_row "2" "Unknown Person" (Some "2024-01-03T09:00:00") "2024-01-03"
                    "attendance_images/z.jpg";
                  mk_row "4" "Unknown Person" None "2024-01-04"
                    "attendance_images/n.jpg";
                  mk_row "3" "Unknown Person" (Some "2024-01-02T09:00:00") "2024-01-02"
                    "attendance_images/y.jpg"];
        journal := [] |}).2
  = jsonify (JArr [JObj [("person_text", JStr "Unknown Person");
                         ("timestamp", JStr "2024-01-03T09:00:00");
                         ("image_path", JStr "/attendance_images/z.jpg")];
                   JObj [("person_text", JStr "Unknown Person");
                         ("timestamp", JStr "2024-01-02T09:00:00");
                         ("image_path", JStr "/attendance_images/y.jpg")];
                   JObj [("person_text", JStr "Unknown Person");
                         ("timestamp", JStr "2024-01-01T10:00:00");
                         ("image_path", JStr "/attendance_images/x.jpg")];
                   JObj [("person_text", JStr "Unknown Person");
                         ("timestamp", JNull);
                         ("image_path", JStr "/attendance_images/n.jpg")]]) 200.
Proof. vm_compute. reflexivity. Qed.

(** ** The laws of [io] *)

Lemma io_bind_ret_l {A B} (a : A) (k : A -> io B) (w : world) :
  io_bind (io_ret a) k w = k a w.
Proof. reflexivity. Qed.

Lemma io_bind_ret_r {A} (m : io A) (w : world) : io_bind m io_ret w = m w.
Proof. unfold io_bind, io_ret. by destruct (m w) as [w' [e|a]]. Qed.

Lemma io_bind_assoc {A B C} (m : io A) (k : A -> io B) (h : B -> io C) (w : world) :
  io_bind (io_bind m k) h w = io_bind m (fun a => io_bind (k a) h) w.
Proof. unfold io_bind. by destruct (m w) as [w' [e|a]]. Qed.

(** An exception leaves the writes made before it in place. *)
Lemma try_except_raise {A B} (m : io A) (k : A -> io B) (handler : string -> B)
    (w w' : world) (e : string) :
  m w = (w', inl e) -> try_except (io_bind m k) handler w = (w', handler e).
Proof. intros Hm. unfold try_except, io_bind. by rewrite Hm. Qed.

(** ** Text and paths *)

Lemma has_char_app (c : ascii) (a b : string) :
  has_char c (a +:+ b) = has_char c a || has_char c b.
Proof.
  induction a as [|x a IH]; simpl; [done|].
  rewrite IH. by rewrite orb_assoc.
Qed.

Lemma all_chars_app (p : ascii -> bool) (a b : string) :
  all_chars p (a +:+ b) = all_chars p a && all_chars p b.
Proof.
  induction a as [|x a IH]; simpl; [done|].
  rewrite IH. by rewrite andb_assoc.
Qed.

Lemma length_app (a b : string) :
  String.length (a +:+ b) = (String.length a + String.length b)%nat.
Proof. induction a as [|x a IH]; simpl; [done|]. by rewrite IH. Qed.

Lemma all_chars_has_char (p : ascii -> bool) (c : ascii) (s : string) :
  all_chars p s = true -> p c = false -> has_char c s = false.
Proof.
  intros Hall Hc. induction s as [|x s IH]; simpl in *; [done|].
  apply andb_prop in Hall as [Hx Hs]. rewrite (IH Hs), orb_false_r.
  destruct (Ascii.eqb_spec x c) as [->|?]; [congruence | done].
Qed.

Lemma split_on_no_sep (sep : ascii) (s : string) :
  has_char sep s = false -> split_on sep s = [s].
Proof.
  induction s as [|c s IH]; simpl; [done|].
  intros [Hc Hs]%orb_false_elim. rewrite Hc, (IH Hs). done.
Qed.

Lemma split_on_app (sep : ascii) (a b : string) :
  has_char sep a = false ->
  split_on sep (a +:+ String sep b) = a :: split_on sep b.
Proof.
  induction a as [|c a IH]; simpl.
  - intros _. by rewrite Ascii.eqb_refl.
  - intros [Hc Ha]%orb_false_elim. rewrite Hc, (IH Ha). done.
Qed.

Lemma split_on_parts (sep : ascii) (s : string) :
  Forall (fun c => has_char sep c = false) (split_on sep s).
Proof.
  induction s as [|c s IH]; simpl.
  - by repeat constructor.
  - destruct (Ascii.eqb c sep) eqn:Hc; [by constructor|].
    destruct (split_on sep s) as [|w ws]; [by repeat constructor; simpl; rewrite Hc|].
    inversion IH as [|? ? Hw Hws]; subst.
    constructor; [simpl; by rewrite Hc, Hw | done].
Qed.

Lemma is_hex_digit_hex_digit (n : N) : is_hex_digit (hex_digit n) = true.
Proof.
  unfold hex_digit. generalize (N.to_nat n) as k. intros k.
  do 16 (destruct k as [|k]; [reflexivity|]). reflexivity.
Qed.

Lemma to_hex_all_hex (width : nat) (u : N) :
  all_chars is_hex_digit (to_hex width u) = true.
Proof.
  revert u. induction width as [|w IH]; intros u; simpl; [done|].
  rewrite all_chars_app, IH. simpl. by rewrite is_hex_digit_hex_digit.
Qed.

Lemma to_hex_length (width : nat) (u : N) : String.length (to_hex width u) = width.
Proof.
  revert u. induction width as [|w IH]; intros u; simpl; [done|].
  rewrite length_app, IH. simpl. lia.
Qed.

Lemma uuid_hex_no_slash (u : N) : has_char slash (uuid_hex u) = false.
Proof.
  apply (all_chars_has_char is_hex_digit); [apply to_hex_all_hex | reflexivity].
Qed.

Lemma new_filename_plain (amb : ambient) : plain_name (new_filename amb).
Proof.
  unfold plain_name, new_filename.
  assert (Hlen : String.length (uuid_hex (uuid4_first amb) +:+ ".jpg") = 36%nat)
    by (rewrite length_app; unfold uuid_hex; by rewrite to_hex_length).
  repeat split; try (intros Heq; rewrite Heq in Hlen; discriminate).
  rewrite has_char_app, uuid_hex_no_slash. reflexivity.
Qed.

Lemma startswith_slash (s : string) :
  has_char slash s = false -> startswith s "/" = false.
Proof.
  destruct s as [|c s]; [done|]. unfold startswith. cbn [String.prefix has_char].
  intros [Hc _]%orb_false_elim.
  destruct (ascii_dec "/" c) as [<-|?]; [done | reflexivity].
Qed.

Lemma join_image_dir (f : string) :
  startswith f "/" = false ->
  posixpath.join IMAGE_DIR f = "attendance_images/" +:+ f.
Proof. unfold posixpath.join. by intros ->. Qed.

Lemma fold_walk_plain (comps stk : list string) :
  Forall plain_name comps ->
  fold_left walk_step comps stk = rev comps ++ stk.
Proof.
  revert stk. induction comps as [|c comps IH]; intros stk Hall; [done|].
  inversion Hall as [|? ? (H1 & H2 & H3 & _) Hcs]; subst. simpl.
  rewrite <- app_assoc. simpl. rewrite <- IH by done. f_equal.
  unfold walk_step. by rewrite !bool_decide_eq_false_2.
Qed.

Lemma resolve_in_store (dir : list string) (f : string) :
  plain_name f ->
  resolve dir ("attendance_images/" +:+ f) = dir ++ [IMAGE_DIR; f].
Proof.
  intros Hf. unfold resolve.
  change ("attendance_images/" +:+ f) with ("attendance_images" +:+ String slash f).
  rewrite split_on_app by reflexivity.
  rewrite split_on_no_sep by apply Hf.
  change (startswith ("attendance_images" +:+ String slash f) "/") with false.
  rewrite fold_walk_plain.
  - simpl. rewrite rev_involutive, <- app_assoc. done.
  - constructor; [by repeat split | by constructor].
Qed.

Lemma resolve_plain (dir : list string) (f : string) :
  plain_name f -> resolve dir f = dir ++ [f].
Proof.
  intros Hf. pose proof Hf as (H1 & H2 & H3 & H4). unfold resolve.
  rewrite split_on_no_sep, startswith_slash by done.
  rewrite (fold_walk_plain [f]) by (by constructor).
  by rewrite rev_app_distr, !rev_involutive.
Qed.

Lemma resolve_db_path (dir : list string) : resolve dir DB_PATH = dir ++ [DB_PATH].
Proof. apply resolve_plain. by repeat split. Qed.

Lemma snoc_neq {A} (l l' : list A) (a b : A) : a ≠ b -> l ++ [a] ≠ l' ++ [b].
Proof. intros Hne Heq. apply app_inj_2 in Heq as [_ [=]]; done. Qed.

Lemma hex_jpg_length (u : N) : String.length (uuid_hex u +:+ ".jpg") = 36%nat.
Proof. rewrite length_app. unfold uuid_hex. by rewrite to_hex_length. Qed.

Lemma hex_jpg_not_db (u : N) : uuid_hex u +:+ ".jpg" ≠ DB_PATH.
Proof. intros Heq. pose proof (hex_jpg_length u) as Hlen. by rewrite Heq in Hlen. Qed.

Lemma hex_jpg_neq (u : N) (s : string) :
  String.length s ≠ 36%nat -> s ≠ uuid_hex u +:+ ".jpg".
Proof. intros Hlen ->. by rewrite hex_jpg_length in Hlen. Qed.


Lemma startswith_app (p x : string) : startswith (p +:+ x) p = true.
Proof.
  unfold startswith. induction p as [|a p IH].
  - by destruct x.
  - change (String a p +:+ x) with (String a (p +:+ x)).
    cbn [String.prefix]. by destruct (ascii_dec a a).
Qed.

Lemma concat_cons (c d : string) (cs : list string) :
  String.concat "/" (c :: d :: cs) = c +:+ String slash (String.concat "/" (d :: cs)).
Proof. reflexivity. Qed.

Lemma split_on_concat (comps : list string) :
  comps ≠ [] ->
  Forall (fun c => has_char slash c = false) comps ->
  split_on slash (String.concat "/" comps) = comps.
Proof.
  induction comps as [|c [|d cs] IH]; intros Hne Hall; [done| |].
  - cbn [String.concat]. apply split_on_no_sep. by inversion Hall.
  - rewrite concat_cons. inversion Hall as [|? ? Hc Hcs]; subst.
    rewrite split_on_app by done. f_equal. by apply IH.
Qed.

Lemma concat_dotdot (rest : list string) :
  String.concat "/" (".." :: rest) = ".."
  ∨ startswith (String.concat "/" (".." :: rest)) "../" = true.
Proof.
  destruct rest as [|d cs]; [by left | right].
  rewrite concat_cons.
  change (".." +:+ String slash (String.concat "/" (d :: cs)))
    with ("../" +:+ String.concat "/" (d :: cs)).
  apply startswith_app.
Qed.

Lemma concat_plain_nonempty (c : string) (cs : list string) :
  c ≠ "" -> String.concat "/" (c :: cs) ≠ "".
Proof.
  intros Hc. destruct cs as [|d cs]; [done|].
  rewrite concat_cons. destruct c; [done | discriminate].
Qed.

(** Once [..] sits at the bottom of [new_comps] it stays there. *)
Lemma norm_keeps_dotdot (comps stk : list string) :
  last stk = Some ".." ->
  last (fold_left (posixpath.norm_step false) comps stk) = Some "..".
Proof.
  revert stk. induction comps as [|c comps IH]; intros stk Hlast; [done|].
  cbn [fold_left]. apply IH. unfold posixpath.norm_step.
  destruct (bool_decide (c = "") || bool_decide (c = ".")); [done|].
  destruct stk as [|x rest]; [done|].
  match goal with
  | |- context [if ?cond then _ else _] => destruct cond eqn:Hpush
  end.
  - by rewrite last_cons_cons.
  - apply orb_false_elim in Hpush as [_ Hx]. apply bool_decide_eq_false in Hx.
    destruct rest as [|y rest]; [simpl in Hlast; congruence|].
    by rewrite last_cons_cons in Hlast.
Qed.

Lemma norm_step_push (new_comps : list string) (c : string) :
  c ≠ "" -> c ≠ "." -> c ≠ ".." ->
  posixpath.norm_step false new_comps c = c :: new_comps.
Proof.
  intros H1 H2 H3. unfold posixpath.norm_step.
  rewrite (bool_decide_eq_false_2 (c = "")), (bool_decide_eq_false_2 (c = ".")),
    (bool_decide_eq_false_2 (c = "..")) by done.
  reflexivity.
Qed.

Lemma norm_step_pop (x : string) (rest : list string) :
  x ≠ ".." -> posixpath.norm_step false (x :: rest) ".." = rest.
Proof.
  intros Hx. unfold posixpath.norm_step.
  rewrite (bool_decide_eq_false_2 (x = "..")) by done.
  rewrite (bool_decide_eq_false_2 (x :: rest = [])) by done.
  reflexivity.
Qed.

Lemma walk_step_push (stk : list string) (c : string) :
  c ≠ "" -> c ≠ "." -> c ≠ ".." -> walk_step stk c = c :: stk.
Proof.
  intros H1 H2 H3. unfold walk_step. by rewrite !bool_decide_eq_false_2.
Qed.

Lemma walk_step_empty (stk : list string) : walk_step stk "" = stk.
Proof. reflexivity. Qed.

Lemma walk_step_dot (stk : list string) : walk_step stk "." = stk.
Proof. reflexivity. Qed.

Lemma resolve_image_dir_slash (dir : list string) :
  resolve dir "attendance_images/" = dir ++ [IMAGE_DIR].
Proof.
  unfold resolve.
  change (split_on slash "attendance_images/") with ["attendance_images"; ""].
  change (startswith "attendance_images/" "/") with false.
  cbn [fold_left]. rewrite (walk_step_push (rev dir)), walk_step_empty by done.
  cbn [rev]. by rewrite rev_involutive.
Qed.

Lemma resolve_image_dir_dot (dir : list string) :
  resolve dir "attendance_images/." = dir ++ [IMAGE_DIR].
Proof.
  unfold resolve.
  change (split_on slash "attendance_images/.") with ["attendance_images"; "."].
  change (startswith "attendance_images/." "/") with false.
  cbn [fold_left]. rewrite (walk_step_push (rev dir)), walk_step_dot by done.
  cbn [rev]. by rewrite rev_involutive.
Qed.

Lemma resolve_empty (dir : list string) : resolve dir "" = dir.
Proof.
  unfold resolve. change (split_on slash "") with [""].
  change (startswith "" "/") with false.
  cbn [fold_left]. by rewrite walk_step_empty, rev_involutive.
Qed.

(** While no [..] is kept, [normpath] walks exactly as the file system does. *)
Lemma norm_walk (comps stk base : list string) :
  Forall (fun c => has_char slash c = false) comps ->
  Forall plain_name stk ->
  let stk' := fold_left (posixpath.norm_step false) comps stk in
  last stk' = Some ".."
  ∨ (Forall plain_name stk' ∧ fold_left walk_step comps (stk ++ base) = stk' ++ base).
Proof.
  revert stk. induction comps as [|c comps IH]; intros stk Hcs Hstk; cbn zeta.
  - right. done.
  - inversion Hcs as [|? ? Hc Hcs']; subst. cbn [fold_left].
    destruct (decide (c = "")) as [->|H1]; [by apply IH|].
    destruct (decide (c = ".")) as [->|H2]; [by apply IH|].
    destruct (decide (c = "..")) as [->|H3].
    + destruct stk as [|x rest].
      * left. by apply norm_keeps_dotdot.
      * inversion Hstk as [|? ? Hx Hrest]; subst.
        rewrite norm_step_pop by apply Hx.
        change (walk_step ((x :: rest) ++ base) "..") with (rest ++ base).
        by apply IH.
    + rewrite norm_step_push, walk_step_push by done.
      change (c :: stk ++ base) with ((c :: stk) ++ base).
      apply IH; [done|]. constructor; [|done]. by repeat split.
Qed.

Lemma normpath_absolute (path : string) :
  startswith path "/" = true -> startswith (posixpath.normpath path) "/" = true.
Proof.
  intros Habs. unfold posixpath.normpath.
  case_bool_decide as Hempty; [by subst|].
  rewrite Habs.
  destruct (startswith path "//" && negb (startswith path "///")); lazy iota.
  - set (x := String.concat "/" _).
    rewrite (bool_decide_eq_false_2 ("//" +:+ x = "")) by done.
    change ("//" +:+ x) with ("/" +:+ ("/" +:+ x)). apply startswith_app.
  - set (x := String.concat "/" _).
    rewrite (bool_decide_eq_false_2 ("/" +:+ x = "")) by done.
    apply startswith_app.
Qed.

Lemma normpath_relative (path : string) :
  path ≠ "" -> startswith path "/" = false ->
  posixpath.normpath path
  = match posixpath.norm_comps false (split_on slash path) with
    | [] => "."
    | c :: cs => String.concat "/" (c :: cs)
    end
  ∨ ∃ cs, posixpath.norm_comps false (split_on slash path) = "" :: cs.
Proof.
  intros Hne Hrel. unfold posixpath.normpath.
  rewrite (bool_decide_eq_false_2 (path = "")) by done.
  rewrite Hrel. lazy iota. cbn [Nat.eqb negb].
  destruct (posixpath.norm_comps false (split_on slash path)) as [|c cs]; [by left|].
  destruct (decide (c = "")) as [->|Hc]; [right; by eexists|].
  left. by rewrite bool_decide_eq_false_2 by (by apply concat_plain_nonempty).
Qed.

(** What [safe_join] lets through names a place below the image store, the
    place the file system finds for the file name within that directory. *)
Lemma safe_join_confined (dir : list string) (filename path_str : string) :
  werkzeug.safe_join IMAGE_DIR filename = Some path_str ->
  ∃ comps,
    Forall plain_name comps ∧
    resolve dir path_str = (dir ++ [IMAGE_DIR]) ++ comps ∧
    resolve (dir ++ [IMAGE_DIR]) filename = (dir ++ [IMAGE_DIR]) ++ comps.
Proof.
  unfold werkzeug.safe_join.
  rewrite (bool_decide_eq_false_2 (IMAGE_DIR = "")) by done.
  case_bool_decide as Hempty; cbn [negb].
  { subst. intros [= <-]. exists []. rewrite app_nil_r.
    split; [done|]. split; [apply resolve_image_dir_slash | apply resolve_empty]. }
  destruct (posixpath.isabs _ || _ || _ || _) eqn:Hrej; [done|].
  intros [= <-].
  apply orb_false_elim in Hrej as [Hrej Hdd2].
  apply orb_false_elim in Hrej as [Hrej Hdd1%bool_decide_eq_false].
  apply orb_false_elim in Hrej as [_ Habs].
  rewrite join_image_dir by done.
  destruct (startswith filename "/") eqn:Hrel;
    [by rewrite normpath_absolute in Habs|].
  pose proof (norm_walk (split_on slash filename) [] (rev (dir ++ [IMAGE_DIR]))
                (split_on_parts slash filename) (Forall_nil_2 _)) as Hwalk.
  cbn zeta in Hwalk. cbn [app] in Hwalk.
  pose proof (normpath_relative filename Hempty Hrel) as Hnorm.
  unfold posixpath.norm_comps in Hnorm.
  set (stk' := fold_left (posixpath.norm_step false) (split_on slash filename) []) in *.
  destruct Hwalk as [Hlast | [Hplain Hwalk]].
  { exfalso. apply last_Some in Hlast as [l' Hl'].
    rewrite Hl', rev_app_distr in Hnorm. cbn [rev app] in Hnorm.
    destruct Hnorm as [Hnorm | [cs [=]]].
    rewrite Hnorm in Hdd1, Hdd2.
    destruct (concat_dotdot (rev l')) as [Heq|Hpre]; congruence. }
  assert (Hpl : Forall plain_name (rev stk')) by (by apply Forall_rev).
  destruct Hnorm as [Hnorm | [cs Hcs]];
    [|rewrite Hcs in Hpl; inversion Hpl as [|? ? [? _] ?]; done].
  exists (rev stk'). split; [done|]. split.
  - rewrite Hnorm. destruct (rev stk') as [|c cs] eqn:Hrev.
    + rewrite app_nil_r. apply resolve_image_dir_dot.
    + unfold resolve.
      change (startswith ("attendance_images/" +:+ String.concat "/" (c :: cs)) "/")
        with false.
      change ("attendance_images/" +:+ String.concat "/" (c :: cs))
        with ("attendance_images" +:+ String slash (String.concat "/" (c :: cs))).
      rewrite split_on_app by reflexivity.
      rewrite split_on_concat; [|done|].
      * rewrite (fold_walk_plain ("attendance_images" :: c :: cs)).
        -- rewrite rev_app_distr, !rev_involutive, <- app_assoc. done.
        -- constructor; [by repeat split | done].
      * eapply Forall_impl; [exact Hpl|]. by intros ? (_ & _ & _ & ?).
  - unfold resolve. rewrite Hrel, Hwalk, rev_app_distr, rev_involutive. done.
Qed.

(** ** Ordering rows by timestamp *)

Lemma string_leb_trans (a b c : string) :
  String.leb a b = true -> String.leb b c = true -> String.leb a c = true.
Proof.
  revert b c. induction a as [|x a IH]; intros [|y b] [|z c];
    unfold String.leb; cbn [String.compare]; try done.
  specialize (IH b c). unfold String.leb in IH.
  unfold Ascii.compare.
  destruct (N.compare_spec (N_of_ascii x) (N_of_ascii y)) as [Hxy|Hxy|Hxy];
  destruct (N.compare_spec (N_of_ascii y) (N_of_ascii z)) as [Hyz|Hyz|Hyz];
  destruct (N.compare_spec (N_of_ascii x) (N_of_ascii z)) as [Hxz|Hxz|Hxz];
    try done; try lia.
Qed.


Lemma sql_leb_trans (a b c : option string) :
  sql_leb a b = true -> sql_leb b c = true -> sql_leb a c = true.
Proof.
  destruct a as [x|], b as [y|], c as [z|]; cbn [sql_leb]; try done.
  apply string_leb_trans.
Qed.

Lemma sql_leb_total (a b : option string) :
  sql_leb a b = true ∨ sql_leb b a = true.
Proof.
  destruct a as [x|], b as [y|]; cbn [sql_leb]; auto.
  apply String.leb_total.
Qed.

Lemma insert_desc_perm (r : row) (l : list row) :
  Permutation (insert_desc r l) (r :: l).
Proof.
  induction l as [|x l IH]; simpl; [done|].
  destruct (sql_leb (timestamp x) (timestamp r)); [done|].
  rewrite IH. apply perm_swap.
Qed.

Lemma insert_desc_sorted (r : row) (l : list row) :
  StronglySorted not_older l -> StronglySorted not_older (insert_desc r l).
Proof.
  induction l as [|x l IH]; intros Hs; simpl.
  - by repeat constructor.
  - apply StronglySorted_cons in Hs as [Hx Hl].
    destruct (sql_leb (timestamp x) (timestamp r)) eqn:Hle.
    + apply StronglySorted_cons. split; [|by apply StronglySorted_cons].
      constructor; [done|].
      eapply Forall_impl; [exact Hx|]. intros y Hy.
      unfold not_older in *. by eapply sql_leb_trans.
    + apply StronglySorted_cons. split; [|by apply IH].
      rewrite insert_desc_perm. constructor; [|done].
      unfold not_older. destruct (sql_leb_total (timestamp x) (timestamp r)); congruence.
Qed.

Lemma order_by_perm (t : list row) : Permutation (order_by_timestamp_desc t) t.
Proof.
  induction t as [|r t IH]; simpl; [done|].
  by rewrite insert_desc_perm, IH.
Qed.

Lemma order_by_sorted (t : list row) :
  StronglySorted not_older (order_by_timestamp_desc t).
Proof.
  induction t as [|r t IH]; simpl; [constructor | by apply insert_desc_sorted].
Qed.

Lemma select_recent_rows (t : list row) :
  select_recent t
  = (fun r => (name r, timestamp r, image_path r))
      <$> take 10 (order_by_timestamp_desc t).
Proof. reflexivity. Qed.

(** C4.  [get_recent_attendance] leaves the world as it was and answers with
    an array of at most 10 objects, each with exactly the fields
    [person_text], [timestamp] and [image_path] of one row, whose timestamps
    never increase along the array; the rows listed are those of the table
    with the greatest timestamps. *)
Theorem recent_attendance_listing (w : world) :
  ∃ rows rest : list row,
    get_recent_attendance w = (w, jsonify (JArr (recent_item <$> rows)) 200)
    ∧ (length rows ≤ 10)%nat
    ∧ length rows = min 10 (length (table w))
    ∧ non_increasing (timestamp <$> rows)
    ∧ Permutation (rows ++ rest) (table w)
    ∧ (∀ r r', r ∈ rows -> r' ∈ rest -> not_older r r').
Proof.
  exists (take 10 (order_by_timestamp_desc (table w))),
         (drop 10 (order_by_timestamp_desc (table w))).
  pose proof (order_by_sorted (table w)) as Hs.
  rewrite <- (take_drop 10 (order_by_timestamp_desc (table w))) in Hs.
  split; [|split; [|split; [|split; [|split]]]].
  - unfold get_recent_attendance, try_except, io_bind, io_get, io_ret.
    rewrite select_recent_rows, <- list_fmap_compose. reflexivity.
  - rewrite length_take. lia.
  - rewrite length_take. by rewrite (Permutation_length (order_by_perm (table w))).
  - apply (StronglySorted_fmap _ not_older); [done|].
    by eapply StronglySorted_app_1_l.
  - rewrite take_drop. apply order_by_perm.
  - intros r r' Hr Hr'. by eapply StronglySorted_app_1_elem_of.
Qed.

(** ** Properties of [mark_attendance] *)

Section submit.

Variable rt : runtime.

Lemma has_face_true (b : bytes) :
  has_face rt b = inr true ↔ detectable_face rt b.
Proof.
  unfold has_face, detectable_face. split.
  - destruct (cv2_imdecode rt b) as [e|[img|]] eqn:Hd; try discriminate.
    destruct (cvtColor rt img) as [e|rgb] eqn:Hc; try discriminate.
    destruct (face_locations rt rgb) as [e|faces] eqn:Hf; try discriminate.
    intros [= Hlen]. exists img, rgb, faces. repeat split; try done.
    intros ->. discriminate.
  - intros (img & rgb & faces & -> & -> & -> & Hne).
    destruct faces; [done | reflexivity].
Qed.




Lemma select_count_pos (t : list row) (n d : string) :
  (0 <? select_count t n d)%nat = true ↔ ∃ r, r ∈ t ∧ name r = n ∧ date_ r = d.
Proof.
  unfold select_count. rewrite Nat.ltb_lt. split.
  - intros Hlen.
    destruct (filter (λ r, name r = n ∧ date_ r = d) t) as [|r l] eqn:Hf;
      [simpl in Hlen; lia|].
    assert (Hin : r ∈ filter (λ r, name r = n ∧ date_ r = d) t)
      by (rewrite Hf; left).
    apply list_elem_of_filter in Hin as [[? ?] ?]. by exists r.
  - intros (r & Hin & Hn & Hd).
    assert (Hin' : r ∈ filter (λ r, name r = n ∧ date_ r = d) t)
      by (apply list_elem_of_filter; done).
    destruct (filter _ t); [by apply elem_of_nil in Hin' | simpl; lia].
Qed.

Lemma already_marked_today_spec (amb : ambient) (w : world) :
  ∃ m : bool,
    already_marked_today amb "Unknown Person" w = (w, inr m) ∧
    (m = true ↔ marked_on (table w) (date_isoformat (today_gate amb))).
Proof.
  unfold already_marked_today, io_bind, io_get, io_ret.
  eexists; split; [reflexivity|]. apply select_count_pos.
Qed.

Lemma write_file_new (amb : ambient) (b : bytes) (w : world) :
  write_file (cwd rt) (posixpath.join IMAGE_DIR (new_filename amb)) b w
  = (written rt amb b w, inr tt).
Proof.
  pose proof (new_filename_plain amb) as Hp.
  rewrite join_image_dir by (apply startswith_slash, Hp).
  unfold write_file, written, upload_dir.
  rewrite resolve_in_store by done. by rewrite <- app_assoc.
Qed.

Lemma insert_row_fresh (r : row) (w : world) :
  id r ∉ id <$> table w ->
  insert_row rt r w
  = ({| files := <[db_file rt := db_image rt (table w ++ [r])]> (files w);
        table := table w ++ [r];
        journal := journal w ++ [RowInserted r] |}, inr tt).
Proof.
  intros Hf. unfold insert_row, db_file.
  by rewrite bool_decide_eq_false_2, resolve_db_path.
Qed.

Lemma insert_row_taken (r : row) (w : world) :
  id r ∈ id <$> table w ->
  insert_row rt r w = (w, inl "UNIQUE constraint failed: attendance.id").
Proof. intros Hf. unfold insert_row. by rewrite bool_decide_eq_true_2. Qed.

Lemma insert_row_after_write (amb : ambient) (stored : option string)
    (b : bytes) (w : world) :
  uuid_hex (uuid4_second amb) ∉ id <$> table w ->
  insert_row rt (new_row amb stored) (written rt amb b w)
  = (recorded rt amb stored b w, inr tt).
Proof.
  intros Hf. rewrite insert_row_fresh by done.
  unfold recorded, written. cbn [files table journal].
  by rewrite <- app_assoc.
Qed.

(** Text and the absent timestamp are always bound, as they are. *)
Lemma bind_timestamp_text (s : string) : bind_timestamp rt (JStr s) = inr (Some s).
Proof. reflexivity. Qed.

Lemma bind_timestamp_absent (amb : ambient) (req : request) :
  request_field "timestamp" req = None ->
  bind_timestamp rt (timestamp_of amb req)
  = inr (Some (datetime_isoformat (utcnow amb))).
Proof. unfold timestamp_of. by intros ->. Qed.

Lemma truthy_text (s : string) : truthy (JStr s) = true ↔ s ≠ "".
Proof.
  cbn [truthy]. rewrite negb_true_iff, bool_decide_eq_false. done.
Qed.

(** What [submitted_bytes] says in the terms of the handler. *)
Lemma submitted_bytes_spec (req : request) (b : bytes) :
  submitted_bytes rt req b
  ↔ ∃ data, req = Body (JObj data)
            ∧ truthy (py_get "image_base64" data) = true
            ∧ py_b64decode rt (py_get "image_base64" data) = inr b.
Proof.
  split.
  - intros (s & Hf & Hne & Hb).
    destruct req as [| |[| | | | | |data]]; try discriminate.
    exists data. cbn [request_field] in Hf. unfold py_get. rewrite Hf.
    split; [done|]. split; [by apply truthy_text | done].
  - intros (data & -> & Ht & Hb). unfold py_get in Ht, Hb.
    unfold submitted_bytes. cbn [request_field].
    destruct (dict_get "image_base64" data) as [[| | | |s| |]|] eqn:Hg;
      try discriminate.
    exists s. split; [done|]. split; [by apply truthy_text | done].
Qed.

(** Every call ends in one of the listed ways. *)
Lemma mark_attendance_outcome (amb : ambient) (req : request) (w : world) :
  submit_outcome rt amb req w
    (mark_attendance rt amb req w).1 (mark_attendance rt amb req w).2.
Proof.
  destruct req as [| |v]; [by constructor | by constructor |].
  destruct v as [| | | | | |data];
    try (eapply submit_not_object; [reflexivity | intros ? ?; discriminate]).
  cbn [mark_attendance].
  destruct (truthy (py_get "image_base64" data)) eqn:Ht; cbn [negb];
    [|by eapply submit_no_image].
  unfold try_except, io_bind, io_lift.
  destruct (py_b64decode rt (py_get "image_base64" data)) as [e|b] eqn:Hb;
    [by eapply submit_bad_base64|].
  assert (Hsub : submitted_bytes rt (Body (JObj data)) b)
    by (apply submitted_bytes_spec; by exists data).
  destruct (has_face rt b) as [e|[|]] eqn:Hface; cbn [negb fst snd];
    [by eapply submit_detector_raised | | by eapply submit_no_face].
  destruct (is_live_bytes rt b) as [e|[|]] eqn:Hlive; cbn [negb fst snd];
    [by eapply submit_liveness_raised | | by eapply submit_spoof].
  destruct (already_marked_today_spec amb w) as (m & -> & Hm).
  destruct m; cbn [fst snd]; [eapply submit_duplicate; eauto; by apply Hm|].
  assert (Hnm : ¬ marked_on (table w) (date_isoformat (today_gate amb)))
    by (intros Hx; apply Hm in Hx; discriminate).
  fold (new_filename amb). rewrite write_file_new.
  rewrite join_image_dir by (apply startswith_slash, new_filename_plain).
  change (default (JStr (datetime_isoformat (utcnow amb))) (dict_get "timestamp" data))
    with (timestamp_of amb (Body (JObj data))).
  destruct (bind_timestamp rt (timestamp_of amb (Body (JObj data))))
    as [e|stored] eqn:Hbind; cbn [fst snd];
    [by eapply submit_bind_rejected|].
  fold (new_row amb stored).
  destruct (decide (uuid_hex (uuid4_second amb) ∈ id <$> table w)) as [Hin|Hin].
  - rewrite insert_row_taken by done. cbn [fst snd].
    by eapply submit_insert_rejected.
  - rewrite insert_row_after_write by done. unfold io_ret. cbn [fst snd].
    by eapply submit_recorded.
Qed.

(** The premises of each way determine what the call does. *)
Lemma submit_outcome_run (amb : ambient) (req : request)
    (w w' : world) (r : response) :
  submit_outcome rt amb req w w' r -> mark_attendance rt amb req w = (w', r).
Proof.
  intros Hout.
  pose proof (mark_attendance_outcome amb req w) as Hrun.
  destruct (mark_attendance rt amb req w) as [w2 r2]. simpl in Hrun.
  destruct Hout; inversion Hrun; subst;
    repeat match goal with
    | H : submitted_bytes _ _ _ |- _ =>
        apply submitted_bytes_spec in H as (? & ? & ? & ?)
    end;
    simplify_eq; try done; try congruence;
    exfalso; match goal with H : ∀ d, _ ≠ JObj d |- _ => by eapply H end.
Qed.

Lemma status_failure (code : nat) (msg : string) : status (failure code msg) = code.
Proof. reflexivity. Qed.

Lemma marked_on_recorded (amb : ambient) (stored : option string)
    (b : bytes) (w : world) :
  marked_on (table (recorded rt amb stored b w)) (date_isoformat (today_row amb)).
Proof.
  exists (new_row amb stored). split; [|done].
  unfold recorded. cbn [table]. apply elem_of_app. right. by left.
Qed.

End submit.

(** Case analysis on how the call of [mark_attendance] in the goal ended. *)
Ltac submit_cases :=
  match goal with
  | |- context [mark_attendance ?rt ?amb ?req ?w] =>
      let Hout := fresh "Hout" in
      let w' := fresh "w'" in
      let r := fresh "r" in
      pose proof (mark_attendance_outcome rt amb req w) as Hout;
      destruct (mark_attendance rt amb req w) as [w' r];
      cbn [fst snd] in *;
      inversion Hout; subst
  end.

Section submit_properties.

Variable rt : runtime.

(** No request removes or changes a row: the table only grows. *)
Lemma table_grows (c : call) (w : world) :
  table w `prefix_of` table (handle rt c w).1.
Proof.
  destruct c as [amb req| |filename]; cbn [handle].
  - submit_cases; try done. by apply prefix_app_r.
  - unfold get_recent_attendance, try_except, io_bind, io_get, io_ret. done.
  - unfold serve_image, send_from_directory.
    by repeat case_match.
Qed.

Lemma table_grows_run (calls : list call) (w : world) :
  table w `prefix_of` table (run rt calls w).
Proof.
  revert w. induction calls as [|c calls IH]; intros w; [done|].
  cbn [run foldl]. etrans; [apply (table_grows c)|]. apply IH.
Qed.

Lemma marked_on_run (calls : list call) (w : world) (d : string) :
  marked_on (table w) d -> marked_on (table (run rt calls w)) d.
Proof.
  intros (r & Hin & Hr). exists r. split; [|done].
  destruct (table_grows_run calls w) as [k ->]. apply elem_of_app. by left.
Qed.

(** C1.  A submission whose payload shows a face and passes liveness is
    answered with 409 "Attendance already marked for today" when the table
    already holds a record under the placeholder name for today's date, the
    date [already_marked_today] reads, and is recorded and answered with
    success otherwise (its timestamp being one the database binds, as every
    string and the absent timestamp are, and the identifier drawn for the
    new row being unused); after such a first submission, a second one on
    the date of the row recorded is answered with 409, whatever requests
    were served in between. *)
Theorem duplicate_gate (amb : ambient) (req : request)
    (b : bytes) (stored : option string) (w : world) :
  submitted_bytes rt req b ->
  detectable_face rt b ->
  is_live_bytes rt b = inr true ->
  (marked_on (table w) (date_isoformat (today_gate amb)) ->
   mark_attendance rt amb req w
   = (w, failure 409 "Attendance already marked for today"))
  ∧ (¬ marked_on (table w) (date_isoformat (today_gate amb)) ->
     bind_timestamp rt (timestamp_of amb req) = inr stored ->
     uuid_hex (uuid4_second amb) ∉ id <$> table w ->
     let w1 := recorded rt amb stored b w in
     mark_attendance rt amb req w
     = (w1, success (timestamp_of amb req) (new_filename amb))
     ∧ ∀ calls amb2 req2 b2,
         today_gate amb2 = today_row amb ->
         submitted_bytes rt req2 b2 ->
         detectable_face rt b2 ->
         is_live_bytes rt b2 = inr true ->
         let w2 := run rt calls w1 in
         mark_attendance rt amb2 req2 w2
         = (w2, failure 409 "Attendance already marked for today")).
Proof.
  intros Hsub Hface%has_face_true Hlive. split.
  - intros Hm. apply submit_outcome_run. by eapply submit_duplicate.
  - intros Hnm Hbind Hfresh w1. split.
    + apply submit_outcome_run. by eapply submit_recorded.
    + intros calls amb2 req2 b2 Hday Hsub2 Hface2%has_face_true Hlive2 w2.
      apply submit_outcome_run. eapply submit_duplicate; eauto.
      rewrite Hday. apply marked_on_run, marked_on_recorded.
Qed.


(** C3.  A submission whose payload shows a face but for which the liveness
    checker answers no is answered with 403 "Spoof detected"; the files, the
    table and the journal of writes are left as they were. *)
Theorem spoof_forbidden (amb : ambient) (req : request)
    (b : bytes) (w : world) :
  submitted_bytes rt req b ->
  detectable_face rt b ->
  is_live_bytes rt b = inr false ->
  mark_attendance rt amb req w = (w, failure 403 "Spoof detected").
Proof.
  intros Hsub Hface%has_face_true Hlive.
  apply submit_outcome_run. by eapply submit_spoof.
Qed.

(** C9.  When the [live_detection] module is unavailable the substituted
    checker answers live for every input, and no submission is answered with
    403 "Spoof detected". *)
Theorem fallback_never_spoof (amb : ambient) (req : request) (w : world) :
  live_detection rt = None ->
  (∀ b, is_live_bytes rt b = inr true)
  ∧ (mark_attendance rt amb req w).2 ≠ failure 403 "Spoof detected".
Proof.
  intros Hnone.
  assert (Hlive : ∀ b, is_live_bytes rt b = inr true)
    by (intros b; unfold is_live_bytes; by rewrite Hnone).
  split; [done|].
  submit_cases; try discriminate.
  rewrite Hlive in *. discriminate.
Qed.

(** C10.  When [mark_attendance] answers 400, 403 or 409, the files, the
    table and the journal of writes are exactly as before the call. *)
Theorem early_failure_leaves_world (amb : ambient) (req : request)
    (w : world) :
  status (mark_attendance rt amb req w).2 ∈ [400; 403; 409] ->
  (mark_attendance rt amb req w).1 = w.
Proof.
  submit_cases; intros Hst; try done;
    rewrite ?status_failure in Hst; cbn [status success jsonify] in Hst;
    repeat (apply elem_of_cons in Hst as [Hst|Hst]; [discriminate|]);
    by apply elem_of_nil in Hst.
Qed.

Lemma lookup_written (amb : ambient) (b : bytes) (w : world) :
  files (written rt amb b w)
    !! resolve (cwd rt) ("attendance_images/" +:+ new_filename amb) = Some b.
Proof.
  rewrite resolve_in_store by apply new_filename_plain.
  unfold written, upload_dir. cbn [files].
  rewrite <- app_assoc. apply lookup_insert_eq.
Qed.

(** C6.  The writes one call of [mark_attendance] adds to the journal are
    none, the image file alone, or the image file followed by the row: a row
    is inserted only directly after the file its [image_path] names was
    written, that file is on disk holding the submitted bytes at the insert,
    and the table grows only by the row so journalled. *)
Theorem file_written_before_row (amb : ambient) (req : request)
    (w : world) :
  let w' := (mark_attendance rt amb req w).1 in
  ∃ evs,
    journal w' = journal w ++ evs ∧
    (∀ pre r post,
        evs = pre ++ RowInserted r :: post ->
        ∃ b mid,
          pre = [FileWritten (image_path r) b] ∧ post = [] ∧
          write_file (cwd rt) (image_path r) b w = (mid, inr tt) ∧
          files mid !! resolve (cwd rt) (image_path r) = Some b ∧
          insert_row rt r mid = (w', inr tt)) ∧
    (table w' = table w ∧ (∀ r, RowInserted r ∉ evs)
     ∨ ∃ r, table w' = table w ++ [r] ∧ RowInserted r ∈ evs).
Proof.
  assert (Hnil : ∀ (pre : list event) e post, [] ≠ pre ++ e :: post)
    by (intros [|] ? ?; discriminate).
  cbn zeta. submit_cases.
  1-10: exists []; rewrite app_nil_r; split; [done|]; split;
       [intros pre r0 post Heq; by apply Hnil in Heq
       | left; split; [done | intros r0 Hin; by apply elem_of_nil in Hin]].
  1-2: eexists [_]; (split; [reflexivity|]); split;
       [ intros [|e0 [|? ?]] r0 post [=]
       | left; split; [done|]; intros r0 Hin;
         apply list_elem_of_singleton in Hin; discriminate ].
  eexists [_; _]. split; [reflexivity|]. split.
  - intros [|e0 [|e' [|? ?]]] r0 post [=]; subst.
    exists b, (written rt amb b w). cbn [new_row image_path].
    split; [done|]. split; [done|].
    rewrite <- (join_image_dir (new_filename amb))
      by (apply startswith_slash, new_filename_plain).
    split; [apply write_file_new|].
    rewrite (join_image_dir (new_filename amb))
      by (apply startswith_slash, new_filename_plain).
    split; [apply lookup_written|].
    by apply insert_row_after_write.
  - right. exists (new_row amb stored). split; [done|].
    apply elem_of_cons. right. by left.
Qed.


(** Over any sequence of submissions, the rows of the table keep naming
    files that exist. *)
Lemma rows_have_files_kept (amb : ambient) (req : request) (w : world) :
  rows_have_files rt w -> rows_have_files rt (mark_attendance rt amb req w).1.
Proof.
  intros Hinv.
  submit_cases; try done.
  - intros r0 Hin. cbn [written files]. apply lookup_insert_is_Some'. right.
    by apply Hinv.
  - intros r0 Hin. cbn [written files]. apply lookup_insert_is_Some'. right.
    by apply Hinv.
  - intros r0 [Hin | ->%list_elem_of_singleton]%elem_of_app;
      cbn [recorded files]; apply lookup_insert_is_Some'; right.
    + apply lookup_insert_is_Some'. right. by apply Hinv.
    + exists b. apply lookup_written.
Qed.

Lemma handle_submit_only_writes (c : call) (w : world) :
  (handle rt c w).1 = w ∨ ∃ amb req, c = Submit amb req.
Proof.
  destruct c as [amb req| |filename]; cbn [handle].
  - right. by eexists _, _.
  - left. reflexivity.
  - left. unfold serve_image, send_from_directory. by repeat case_match.
Qed.

Lemma rows_have_files_run (calls : list call) (w : world) :
  rows_have_files rt w -> rows_have_files rt (run rt calls w).
Proof.
  revert w. induction calls as [|c calls IH]; intros w Hinv; [done|].
  cbn [run foldl]. apply IH.
  destruct (handle_submit_only_writes c w) as [-> | (amb & req & ->)]; [done|].
  by apply rows_have_files_kept.
Qed.




(** A submission touches two files at most: the image it stores and the
    database file. *)
Lemma files_kept_submit (amb : ambient) (req : request) (w : world)
    (key : list string) :
  key ≠ upload_dir rt ++ [new_filename amb] ->
  key ≠ db_file rt ->
  files (mark_attendance rt amb req w).1 !! key = files w !! key.
Proof.
  intros Hkey Hdb. submit_cases; try done;
    unfold written, recorded; cbn [files]; by rewrite !lookup_insert_ne.
Qed.

End submit_properties.

(** ** Properties of [serve_image] *)

Section fetch.

Variable rt : runtime.

Lemma startswith_split (s p : string) :
  startswith s p = true -> ∃ x, s = p +:+ x.
Proof.
  unfold startswith. revert s. induction p as [|a p IH]; intros s.
  - intros _. by exists s.
  - destruct s as [|c s]; [done|]. cbn [String.prefix].
    destruct (ascii_dec a c) as [<-|?]; [|done].
    intros [x ->]%IH. by exists x.
Qed.

Lemma plain_not_dotdot_slash (f : string) :
  has_char slash f = false -> startswith f "../" = false.
Proof.
  intros Hf. destruct (startswith f "../") eqn:Hpre; [|done].
  apply startswith_split in Hpre as [x ->].
  rewrite has_char_app in Hf. done.
Qed.

Lemma normpath_plain (f : string) : plain_name f -> posixpath.normpath f = f.
Proof.
  intros (H1 & H2 & H3 & H4).
  destruct (normpath_relative f H1 (startswith_slash f H4)) as [Hn | [cs Hn]];
    revert Hn; unfold posixpath.norm_comps; rewrite split_on_no_sep by done;
    cbn [fold_left]; rewrite norm_step_push by done; cbn [rev app].
  - done.
  - intros [=]. done.
Qed.

Lemma safe_join_plain (f : string) :
  plain_name f -> werkzeug.safe_join IMAGE_DIR f = Some ("attendance_images/" +:+ f).
Proof.
  intros Hf. pose proof Hf as (H1 & H2 & H3 & H4).
  unfold werkzeug.safe_join.
  rewrite (bool_decide_eq_false_2 (IMAGE_DIR = "")) by done.
  rewrite (bool_decide_eq_false_2 (f = "")) by done. cbn [negb].
  rewrite normpath_plain by done. unfold posixpath.isabs.
  rewrite startswith_slash, plain_not_dotdot_slash by done.
  rewrite (bool_decide_eq_false_2 (f = "..")) by done. cbn [orb].
  by rewrite join_image_dir by (by apply startswith_slash).
Qed.

(** A file stored under a plain name is served with its content. *)
Lemma serve_image_plain (f : string) (content : bytes) (w : world) :
  plain_name f ->
  files w !! (store_dir rt ++ [f]) = Some content ->
  serve_image rt f w = (w, file_response content).
Proof.
  intros Hf Hfile. unfold serve_image, send_from_directory.
  rewrite safe_join_plain by done.
  unfold os_path_isfile. rewrite resolve_in_store by done.
  unfold store_dir in Hfile. rewrite <- app_assoc in Hfile. cbn [app] in Hfile.
  rewrite Hfile.
  rewrite (bool_decide_eq_true_2 (is_Some (Some content))) by (by eexists).
  by rewrite bool_decide_eq_false_2 by discriminate.
Qed.

(** C5.  [serve_image] answers [NotFound] whenever the file name does not
    lead to an existing file at or below the image store directory, and
    whatever the file name, with [..] segments or not, the answer is either
    [NotFound] or the content of a file whose path lies at or below the image
    store directory; the world is left as it was. *)
Theorem serve_image_confined (filename : string) (w : world) :
  (¬ names_stored_file rt w filename -> serve_image rt filename w = (w, NotFound))
  ∧ (serve_image rt filename w = (w, NotFound)
     ∨ ∃ key content,
         store_dir rt `prefix_of` key ∧
         files w !! key = Some content ∧
         serve_image rt filename w = (w, file_response content)).
Proof.
  assert (Hcases :
    serve_image rt filename w = (w, NotFound)
    ∨ ∃ content,
        store_dir rt `prefix_of` resolve (store_dir rt) filename ∧
        files w !! resolve (store_dir rt) filename = Some content ∧
        serve_image rt filename w = (w, file_response content)).
  { unfold serve_image, send_from_directory.
    destruct (werkzeug.safe_join IMAGE_DIR filename) as [path_str|] eqn:Hjoin;
      [|by left].
    destruct (safe_join_confined (root_path rt) _ _ Hjoin) as (comps & _ & Hres & Hsame).
    fold (store_dir rt) in Hres, Hsame.
    destruct (os_path_isfile (root_path rt) (files w) path_str); cbn [negb]; [|by left].
    destruct (files w !! resolve (root_path rt) path_str) as [content|] eqn:Hfile;
      [|by left].
    right. exists content. rewrite Hsame, <- Hres.
    split; [rewrite Hres; by apply prefix_app_r|]. done. }
  split.
  - intros Hnot. destruct Hcases as [?|(content & Hpre & Hfile & _)]; [done|].
    exfalso. apply Hnot. split; [done | by eexists].
  - destruct Hcases as [?|(content & Hpre & Hfile & Hrun)]; [by left|].
    right. by exists (resolve (store_dir rt) filename), content.
Qed.




(** A stored image is still served unchanged after later submissions, as
    long as they draw other file names. *)
Lemma stored_image_kept (amb : ambient) (req : request)
    (f : string) (content : bytes) (w : world) :
  plain_name f ->
  new_filename amb ≠ f ->
  f ≠ DB_PATH ->
  serve_image rt f w = (w, file_response content) ->
  let w' := (mark_attendance rt amb req w).1 in
  serve_image rt f w' = (w', file_response content).
Proof.
  intros Hf Hne Hdb Hserve w'.
  assert (Hfile : files w !! (store_dir rt ++ [f]) = Some content).
  { revert Hserve. unfold serve_image, send_from_directory.
    rewrite safe_join_plain by done.
    rewrite resolve_in_store by done. fold (store_dir rt).
    unfold store_dir. rewrite <- app_assoc. cbn [app].
    destruct (os_path_isfile _ _ _); cbn [negb]; [|discriminate].
    destruct (files w !! _); [|discriminate]. by intros [= ->]. }
  apply serve_image_plain; [done|].
  subst w'. rewrite files_kept_submit; [done| |].
  - apply snoc_neq. congruence.
  - apply snoc_neq. done.
Qed.

End fetch.

(** ** The properties at work on the small deployment *)

Lemma demo_submitted (s : string) :
  has_char "!" s = false -> s ≠ "" ->
  submitted_bytes demo_runtime (demo_request s) (demo_bytes s).
Proof.
  intros Hs Hne. exists s. split; [reflexivity|]. split; [done|].
  cbn [demo_runtime b64decode]. by rewrite Hs.
Defined.

Lemma demo_face (b : bytes) :
  cv2_imdecode demo_runtime b = inr (Some b) -> byte_in Byte.x46 b = true ->
  detectable_face demo_runtime b.
Proof.
  intros Hdec Hf. exists b, b, [(0, 10, 10, 0)%Z].
  split; [done|]. split; [done|]. split; [|done].
  cbn [demo_runtime face_locations]. by rewrite Hf.
Defined.

Lemma duplicate_gate_witness :
  let w1 := recorded demo_runtime demo_ambient (Some "2024-01-01T10:00:00")
              (list_byte_of_string "FL") empty_world in
  mark_attendance demo_runtime demo_ambient (demo_request "FL") empty_world
  = (w1, success (JStr "2024-01-01T10:00:00") "000000000000000000000000000000a1.jpg")
  ∧ let w2 := run demo_runtime [ListRecent; Fetch "a.jpg"] w1 in
    mark_attendance demo_runtime demo_ambient_later (demo_request "LF") w2
    = (w2, failure 409 "Attendance already marked for today").
Proof.
  destruct (duplicate_gate demo_runtime demo_ambient (demo_request "FL")
              (list_byte_of_string "FL") (Some "2024-01-01T10:00:00") empty_world)
    as [_ Hfirst].
  - by apply (demo_submitted "FL").
  - by apply demo_face.
  - reflexivity.
  - destruct Hfirst as [Hrun Hsecond].
    + intros (r & Hin & _). by apply elem_of_nil in Hin.
    + reflexivity.
    + intros Hin. by apply elem_of_nil in Hin.
    + split; [exact Hrun|].
      apply (Hsecond [ListRecent; Fetch "a.jpg"] demo_ambient_later
               (demo_request "LF") (list_byte_of_string "LF")).
      * reflexivity.
      * by apply (demo_submitted "LF").
      * by apply demo_face.
      * reflexivity.
Defined.


(** The payload [====] is valid base64 for no bytes at all, which cannot be
    decoded as an image; the submission is answered with 500. *)
Lemma no_face_forbidden_counterexample :
  submitted_bytes demo_runtime (demo_request "====") []
  ∧ not_an_image demo_runtime []
  ∧ mark_attendance demo_runtime demo_ambient (demo_request "====") empty_world
    = (empty_world, failure 500 (empty_buffer_error demo_runtime))
  ∧ status (mark_attendance demo_runtime demo_ambient (demo_request "====")
              empty_world).2 = 500.
Proof.
  split; [by apply (demo_submitted "====")|].
  split; [intros img; discriminate|].
  split; vm_compute; reflexivity.
Qed.

Lemma spoof_forbidden_witness :
  mark_attendance demo_runtime demo_ambient (demo_request "F") empty_world
  = (empty_world, failure 403 "Spoof detected").
Proof.
  apply (spoof_forbidden demo_runtime demo_ambient (demo_request "F")
           (list_byte_of_string "F") empty_world).
  - by apply (demo_submitted "F").
  - by apply demo_face.
  - reflexivity.
Defined.

Lemma fallback_never_spoof_witness :
  (∀ b, is_live_bytes demo_runtime_no_liveness b = inr true)
  ∧ (mark_attendance demo_runtime_no_liveness demo_ambient (demo_request "F")
       empty_world).2
    ≠ failure 403 "Spoof detected".
Proof.
  apply (fallback_never_spoof demo_runtime_no_liveness demo_ambient
           (demo_request "F") empty_world).
  reflexivity.
Defined.

Lemma early_failure_leaves_world_witness :
  (mark_attendance demo_runtime demo_ambient (demo_request "F") empty_world).1
  = empty_world.
Proof.
  apply (early_failure_leaves_world demo_runtime demo_ambient (demo_request "F")
           empty_world).
  assert (Hst : status (mark_attendance demo_runtime demo_ambient (demo_request "F")
                          empty_world).2 = 403) by (vm_compute; reflexivity).
  rewrite Hst. apply list_elem_of_further, list_elem_of_here.
Defined.


(** A request whose [timestamp] member is [null], or a number, supplies no
    timestamp string; the successful response carries that value, not an
    instant generated by the server. *)
Lemma success_response_shape_counterexample :
  request_field "timestamp" (demo_request_stamped "FL" JNull) = Some JNull
  ∧ (mark_attendance demo_runtime demo_ambient (demo_request_stamped "FL" JNull)
       empty_world).2
    = jsonify (JObj [("ok", JBool true);
                     ("timestamp", JNull);
                     ("image_path",
                      JStr "/attendance_images/000000000000000000000000000000a1.jpg");
                     ("name", JStr "Unknown Person")]) 200
  ∧ (mark_attendance demo_runtime demo_ambient
       (demo_request_stamped "FL" (JInt 1704103200)) empty_world).2
    = jsonify (JObj [("ok", JBool true);
                     ("timestamp", JInt 1704103200);
                     ("image_path",
                      JStr "/attendance_images/000000000000000000000000000000a1.jpg");
                     ("name", JStr "Unknown Person")]) 200.
Proof. vm_compute. repeat split; reflexivity. Qed.


(** Started from the directory above its own, the service answers a
    submission with success and then does not find the image under the URL
    it returned: the file was written below the working directory, and
    [serve_image] looks below the application root. *)
Lemma image_round_trip_counterexample :
  status (mark_attendance demo_runtime_detached demo_ambient (demo_request "FL")
            empty_world).2 = 200
  ∧ response_image_url
      (mark_attendance demo_runtime_detached demo_ambient (demo_request "FL")
         empty_world).2
    = Some "/attendance_images/000000000000000000000000000000a1.jpg"
  ∧ get_image_url demo_runtime_detached
      "/attendance_images/000000000000000000000000000000a1.jpg"
      (mark_attendance demo_runtime_detached demo_ambient (demo_request "FL")
         empty_world).1
    = Some ((mark_attendance demo_runtime_detached demo_ambient (demo_request "FL")
               empty_world).1, NotFound).
Proof. vm_compute. repeat split; reflexivity. Qed.

(** ** Further properties of [mark_attendance] *)

Section submit_more.

Variable rt : runtime.

Lemma submitted_bytes_unique (req : request) (b1 b2 : bytes) :
  submitted_bytes rt req b1 -> submitted_bytes rt req b2 -> b1 = b2.
Proof. intros (s1 & H1 & _ & Hb1) (s2 & H2 & _ & Hb2). congruence. Qed.

Lemma request_field_object (k : string) (req : request) (v : json) :
  request_field k req = Some v ->
  ∃ data, req = Body (JObj data) ∧ dict_get k data = Some v.
Proof.
  destruct req as [| |[| | | | | |data]]; try discriminate.
  intros Hf. by exists data.
Qed.


(** X2.  When the base64 decoder, the face detection or the liveness checker
    raises, [mark_attendance] answers 500 with the text of the exception and
    leaves the world as it was: no file is written, no row inserted. *)
Theorem exception_answered_500 (amb : ambient) (req : request)
    (w : world) (e : string) :
  collaborator_raises rt req e ->
  mark_attendance rt amb req w = (w, failure 500 e).
Proof.
  intros [(s & Hs & Hne & Hb) | [(b & Hsub & Hf) | (b & Hsub & Hf & Hl)]];
    apply submit_outcome_run.
  - apply request_field_object in Hs as (data & Hreq & Hs).
    eapply (submit_bad_base64 _ _ _ _ data); [done| |];
      unfold py_get; rewrite Hs; [by apply truthy_text | done].
  - by eapply submit_detector_raised.
  - by eapply submit_liveness_raised.
Qed.

(** X3.  When the identifier drawn for the row is already a primary key, the
    INSERT is rejected after the image was written: the answer is 500, the
    table is unchanged, and the image file stays on disk with the submitted
    bytes. *)
Theorem rejected_insert_leaves_file (amb : ambient) (req : request)
    (b : bytes) (stored : option string) (w : world) :
  submitted_bytes rt req b ->
  detectable_face rt b ->
  is_live_bytes rt b = inr true ->
  ¬ marked_on (table w) (date_isoformat (today_gate amb)) ->
  bind_timestamp rt (timestamp_of amb req) = inr stored ->
  uuid_hex (uuid4_second amb) ∈ id <$> table w ->
  let out := mark_attendance rt amb req w in
  out.2 = failure 500 "UNIQUE constraint failed: attendance.id"
  ∧ table out.1 = table w
  ∧ files out.1 !! (upload_dir rt ++ [new_filename amb]) = Some b
  ∧ journal out.1
    = journal w ++ [FileWritten ("attendance_images/" +:+ new_filename amb) b].
Proof.
  intros Hsub Hface%has_face_true Hlive Hnm Hbind Hin out.
  assert (Hrun : out = (written rt amb b w,
                        failure 500 "UNIQUE constraint failed: attendance.id"))
    by (apply submit_outcome_run; by eapply submit_insert_rejected).
  rewrite Hrun. cbn [fst snd written files table journal].
  split; [done|]. split; [done|]. split; [apply lookup_insert_eq | done].
Qed.


(** X5.  A call of [mark_attendance] changes the table only by appending the
    one row of a submission that decoded, showed a face, passed liveness and
    was not a duplicate for the day; its answer is then the success object. *)
Theorem row_requires_checks (amb : ambient) (req : request) (w : world) :
  table (mark_attendance rt amb req w).1 ≠ table w ->
  ∃ b stored,
    submitted_bytes rt req b
    ∧ detectable_face rt b
    ∧ is_live_bytes rt b = inr true
    ∧ ¬ marked_on (table w) (date_isoformat (today_gate amb))
    ∧ bind_timestamp rt (timestamp_of amb req) = inr stored
    ∧ table (mark_attendance rt amb req w).1 = table w ++ [new_row amb stored]
    ∧ status (mark_attendance rt amb req w).2 = 200.
Proof.
  submit_cases; intros Hch; try done.
  exists b, stored. rewrite <- has_face_true. done.
Qed.

(** X6.  [mark_attendance] answers 409 exactly when the payload decoded,
    showed a face, passed liveness and a record for today already exists: a
    duplicate request without a usable image is answered by the earlier
    check, not by the duplicate gate. *)
Theorem conflict_iff (amb : ambient) (req : request) (w : world) :
  status (mark_attendance rt amb req w).2 = 409
  ↔ ∃ b, submitted_bytes rt req b
         ∧ detectable_face rt b
         ∧ is_live_bytes rt b = inr true
         ∧ marked_on (table w) (date_isoformat (today_gate amb)).
Proof.
  split.
  - submit_cases; intros Hst; try discriminate.
    exists b. rewrite <- has_face_true. done.
  - intros (b & Hsub & Hface%has_face_true & Hlive & Hm).
    rewrite (submit_outcome_run rt amb req w w
               (failure 409 "Attendance already marked for today")); [done|].
    by eapply submit_duplicate.
Qed.

End submit_more.

(** ** The service over sequences of requests *)

Section service_runs.

Variable rt : runtime.

(** What every submission keeps, every sequence of requests keeps. *)
Lemma run_keeps (P : world -> Prop) (calls : list call) (w : world) :
  (∀ amb req w0, P w0 -> P (mark_attendance rt amb req w0).1) ->
  P w -> P (run rt calls w).
Proof.
  intros Hstep. revert w. induction calls as [|c calls IH]; intros w Hw; [done|].
  cbn [run foldl]. apply IH.
  destruct (handle_submit_only_writes rt c w) as [-> | (amb & req & ->)]; [done|].
  by apply Hstep.
Qed.

Lemma files_kept_run (calls : list call) (w : world) (key : list string) :
  (∀ u, key ≠ upload_dir rt ++ [uuid_hex u +:+ ".jpg"]) ->
  key ≠ db_file rt ->
  files (run rt calls w) !! key = files w !! key.
Proof.
  intros Hkey Hdb.
  apply (run_keeps (fun w' => files w' !! key = files w !! key)); [|done].
  intros amb req w0 <-. apply files_kept_submit; [|done].
  unfold new_filename. exact (Hkey (uuid4_first amb)).
Qed.

Lemma unique_ids_submit (amb : ambient) (req : request) (w : world) :
  unique_ids w -> unique_ids (mark_attendance rt amb req w).1.
Proof.
  unfold unique_ids. intros Hinv. submit_cases; try done.
  unfold recorded. cbn [table]. rewrite fmap_app. apply NoDup_app.
  split; [done|]. split; [|apply NoDup_singleton].
  intros i Hin ->%list_elem_of_singleton. done.
Qed.


Lemma names_kept_submit (amb : ambient) (req : request) (w : world) :
  (∀ r, r ∈ table w -> name r = "Unknown Person") ->
  ∀ r, r ∈ table (mark_attendance rt amb req w).1 -> name r = "Unknown Person".
Proof.
  intros Hinv. submit_cases; try done.
  intros r0 [Hin | ->%list_elem_of_singleton]%elem_of_app; [by apply Hinv | done].
Qed.



(** X8.  No sequence of requests updates or deletes a row: the table after
    the requests begins with the table before them, row for row. *)
Theorem table_append_only (calls : list call) (w : world) :
  table w `prefix_of` table (run rt calls w).
Proof. apply table_grows_run. Qed.


(** X10.  The primary key holds over every sequence of requests: no two rows
    of the table share an [id]. *)
Theorem unique_ids_always (calls : list call) (w : world) :
  unique_ids w -> unique_ids (run rt calls w).
Proof. apply run_keeps. apply unique_ids_submit. Qed.



(** X13.  [already_marked_today(name)] reports exactly whether the table
    holds a row with that name and today's date, and writes nothing. *)
Theorem already_marked_today_reports (amb : ambient) (name0 : string) (w : world) :
  ∃ m : bool,
    already_marked_today amb name0 w = (w, inr m)
    ∧ (m = true
       ↔ ∃ r, r ∈ table w ∧ name r = name0
              ∧ date_ r = date_isoformat (today_gate amb)).
Proof.
  unfold already_marked_today, io_bind, io_get, io_ret.
  eexists; split; [reflexivity|]. apply select_count_pos.
Qed.

(** X14.  Called with its default name "Detected", [already_marked_today]
    never reports a mark in a table this service filled: the rows it inserts
    are all named "Unknown Person". *)
Theorem default_name_never_marked (calls : list call) (amb : ambient) (w : world) :
  (∀ r, r ∈ table w -> name r = "Unknown Person") ->
  let w' := run rt calls w in
  already_marked_today_default amb w' = (w', inr false).
Proof.
  intros Hinv w'.
  assert (Hinv' : ∀ r, r ∈ table w' -> name r = "Unknown Person")
    by (apply (run_keeps (fun w0 => ∀ r, r ∈ table w0 -> name r = "Unknown Person"));
        [apply names_kept_submit | done]).
  unfold already_marked_today_default, already_marked_today, io_bind, io_get, io_ret.
  do 2 f_equal.
  destruct (0 <? select_count (table w') "Detected" (date_isoformat (today_gate amb)))%nat
    eqn:Hc; [|done].
  apply select_count_pos in Hc as (r & Hin & Hn & _).
  rewrite (Hinv' r Hin) in Hn. discriminate.
Qed.

(** X15.  What [/] serves is untouched by the rest of the service: after any
    sequence of requests [home] gives the same answer as before, and [home]
    itself writes nothing. *)
Theorem home_unaffected (calls : list call) (w : world) :
  (home rt (run rt calls w)).2 = (home rt w).2 ∧ (home rt w).1 = w.
Proof.
  split; [|done]. unfold home. cbn [snd]. f_equal.
  rewrite resolve_plain by (by repeat split).
  apply files_kept_run.
  - intros u. unfold upload_dir. apply snoc_neq, hex_jpg_neq. discriminate.
  - apply snoc_neq. discriminate.
Qed.

End service_runs.

(** ** Identifiers and dates as text *)

Lemma app_inj_length (a a' x x' : string) :
  String.length a = String.length a' ->
  a +:+ x = a' +:+ x' -> a = a' ∧ x = x'.
Proof.
  revert a'. induction a as [|c a IH]; intros [|c' a'] Hlen; try discriminate.
  - done.
  - change (String c (a +:+ x) = String c' (a' +:+ x') -> String c a = String c' a' ∧ x = x').
    intros [= -> Heq]. injection Hlen as Hlen.
    destruct (IH a' Hlen Heq) as [-> ->]. done.
Qed.

Lemma hex_digit_inj (n m : N) :
  (n < 16)%N -> (m < 16)%N -> hex_digit n = hex_digit m -> n = m.
Proof.
  intros Hn Hm. unfold hex_digit. intros Heq.
  apply N2Nat.inj.
  assert (Hn' : (N.to_nat n < 16)%nat) by lia.
  assert (Hm' : (N.to_nat m < 16)%nat) by lia.
  revert Hn' Hm' Heq. generalize (N.to_nat n) (N.to_nat m). intros i j Hi Hj.
  do 16 (destruct i as [|i]; [do 16 (destruct j as [|j]; [done|]); lia|]). lia.
Qed.

Lemma to_hex_inj (width : nat) (u v : N) :
  to_hex width u = to_hex width v ->
  (u mod 16 ^ N.of_nat width = v mod 16 ^ N.of_nat width)%N.
Proof.
  revert u v. induction width as [|w IH]; intros u v Heq.
  - by rewrite !N.mod_1_r.
  - cbn [to_hex] in Heq.
    apply app_inj_length in Heq as [Hhi Hlo];
      [|by rewrite !to_hex_length].
    injection Hlo as Hlo.
    change 15%N with (N.ones 4) in Hlo. rewrite !N.land_ones in Hlo.
    apply hex_digit_inj in Hlo;
      [|by apply N.mod_lt|by apply N.mod_lt].
    apply IH in Hhi. rewrite !N.shiftr_div_pow2 in Hhi.
    change (2 ^ 4)%N with 16%N in *.
    rewrite Nat2N.inj_succ, N.pow_succ_r'.
    rewrite !N.Div0.mod_mul_r. congruence.
Qed.

Lemma uuid_hex_inj (u v : N) :
  (u < 2 ^ 128)%N -> (v < 2 ^ 128)%N -> uuid_hex u = uuid_hex v -> u = v.
Proof.
  intros Hu Hv Heq%to_hex_inj.
  change (16 ^ N.of_nat 32)%N with (2 ^ 128)%N in Heq.
  by rewrite !N.mod_small in Heq.
Qed.

Lemma to_uint_normal (n : nat) : Decimal.unorm (Nat.to_uint n) = Nat.to_uint n.
Proof.
  rewrite <- DecimalNat.Unsigned.to_of. by rewrite DecimalNat.Unsigned.of_to.
Qed.

Lemma string_of_to_uint (n : nat) :
  NilZero.string_of_uint (Nat.to_uint n) = NilEmpty.string_of_uint (Nat.to_uint n).
Proof.
  pose proof (DecimalFacts.unorm_nonnil (Nat.to_uint n)) as Hnn.
  rewrite to_uint_normal in Hnn. by destruct (Nat.to_uint n).
Qed.

Lemma concat_zeros (k : nat) (d : Decimal.uint) :
  String.concat "" (replicate k "0") +:+ NilEmpty.string_of_uint d
  = NilEmpty.string_of_uint (Nat.iter k Decimal.D0 d).
Proof.
  induction k as [|k IH]; [done|].
  change (Nat.iter (S k) Decimal.D0 d) with (Decimal.D0 (Nat.iter k Decimal.D0 d)).
  cbn [NilEmpty.string_of_uint]. rewrite <- IH.
  by destruct k.
Qed.

(** Padding with zeros never makes two different numbers look alike. *)
Lemma zero_pad_inj (w w' n m : nat) : zero_pad w n = zero_pad w' m -> n = m.
Proof.
  unfold zero_pad. rewrite !string_of_to_uint, !concat_zeros.
  intros Heq. apply (f_equal NilEmpty.uint_of_string) in Heq.
  rewrite !NilEmpty.usu in Heq. injection Heq as Heq.
  apply (f_equal Decimal.unorm) in Heq.
  rewrite !DecimalFacts.unorm_iter_D0, !to_uint_normal in Heq.
  by apply DecimalNat.Unsigned.to_uint_inj.
Qed.

Lemma string_of_uint_digits (d : Decimal.uint) :
  all_chars is_dec_digit (NilEmpty.string_of_uint d) = true.
Proof. induction d; cbn [NilEmpty.string_of_uint all_chars]; by rewrite ?IHd. Qed.

Lemma zero_pad_no_dash (w n : nat) : has_char "-" (zero_pad w n) = false.
Proof.
  unfold zero_pad. rewrite string_of_to_uint, concat_zeros.
  apply (all_chars_has_char is_dec_digit); [apply string_of_uint_digits | done].
Qed.

Lemma date_isoformat_inj (d d' : date) :
  date_isoformat d = date_isoformat d' -> d = d'.
Proof.
  destruct d as [y m dd], d' as [y' m' dd']. unfold date_isoformat. cbn [d_year d_month d_day].
  intros Heq. apply (f_equal (split_on "-")) in Heq. revert Heq.
  change (?a +:+ "-" +:+ ?b +:+ "-" +:+ ?c) with (a +:+ String "-" (b +:+ String "-" c)).
  rewrite !split_on_app, !split_on_no_sep by apply zero_pad_no_dash.
  intros [= ->%zero_pad_inj ->%zero_pad_inj ->%zero_pad_inj]. done.
Qed.

(** ** Further properties: stored images, refused paths, other days *)

Section more_properties.

Variable rt : runtime.

(** X16.  Distinct 128-bit identifiers give distinct file names, so a
    submission that draws another identifier than the one an image is stored
    under leaves that image served exactly as before. *)
Theorem other_identifier_keeps_image (amb : ambient) (req : request)
    (u : N) (content : bytes) (w : world) :
  (u < 2 ^ 128)%N ->
  (uuid4_first amb < 2 ^ 128)%N ->
  uuid4_first amb ≠ u ->
  serve_image rt (uuid_hex u +:+ ".jpg") w = (w, file_response content) ->
  let w' := (mark_attendance rt amb req w).1 in
  serve_image rt (uuid_hex u +:+ ".jpg") w' = (w', file_response content).
Proof.
  intros Hu Ha Hne Hserve.
  apply stored_image_kept; [| | |done].
  - apply (new_filename_plain
             (mk_ambient (utcnow amb) (today_row amb) (today_gate amb) u 0)).
  - unfold new_filename. intros Heq.
    apply app_inj_length in Heq as [Heq _];
      [|unfold uuid_hex; by rewrite !to_hex_length].
    by apply uuid_hex_inj in Heq.
  - apply hex_jpg_not_db.
Qed.

(** X17.  A file name that begins with a slash is always answered
    [NotFound], even when it spells out the path of a stored image. *)
Theorem absolute_path_not_found (filename : string) (w : world) :
  startswith filename "/" = true ->
  serve_image rt filename w = (w, NotFound).
Proof.
  intros Habs. unfold serve_image, send_from_directory, werkzeug.safe_join.
  rewrite (bool_decide_eq_false_2 (filename = "")) by (by intros ->).
  cbn [negb]. unfold posixpath.isabs.
  by rewrite normpath_absolute.
Qed.

(** X18.  The gate is per calendar date: different dates never have the same
    ISO text, so a table whose placeholder rows all carry other dates than
    today's does not hold back today's submission. *)
Theorem other_days_do_not_block (amb : ambient) (req : request)
    (b : bytes) (stored : option string) (w : world) :
  submitted_bytes rt req b ->
  detectable_face rt b ->
  is_live_bytes rt b = inr true ->
  bind_timestamp rt (timestamp_of amb req) = inr stored ->
  uuid_hex (uuid4_second amb) ∉ id <$> table w ->
  (∀ r, r ∈ table w -> name r = "Unknown Person" ->
        ∃ d, date_ r = date_isoformat d ∧ d ≠ today_gate amb) ->
  mark_attendance rt amb req w
  = (recorded rt amb stored b w,
     success (timestamp_of amb req) (new_filename amb)).
Proof.
  intros Hsub Hface%has_face_true Hlive Hbind Hfresh Hdays.
  apply submit_outcome_run. eapply submit_recorded; eauto.
  intros (r & Hin & Hn & Hd).
  destruct (Hdays r Hin Hn) as (d & Hd' & Hne).
  apply Hne, date_isoformat_inj. congruence.
Qed.

End more_properties.

(** ** The further properties at work on the small deployment *)

Lemma exception_answered_500_witness :
  mark_attendance demo_runtime demo_ambient (demo_request "F!L") empty_world
  = (empty_world, failure 500 "Incorrect padding").
Proof.
  apply (exception_answered_500 demo_runtime demo_ambient (demo_request "F!L")
           empty_world "Incorrect padding").
  left. exists "F!L". split; [reflexivity|]. split; [done | reflexivity].
Defined.

Lemma demo_taken_unmarked :
  ¬ marked_on (table demo_world_taken) (date_isoformat (today_gate demo_ambient)).
Proof.
  intros (r & Hin & _ & Hd). apply list_elem_of_singleton in Hin. subst r.
  discriminate Hd.
Defined.

Lemma rejected_insert_leaves_file_witness :
  let out := mark_attendance demo_runtime demo_ambient (demo_request "FL")
               demo_world_taken in
  out.2 = failure 500 "UNIQUE constraint failed: attendance.id"
  ∧ table out.1 = table demo_world_taken
  ∧ files out.1 !! (upload_dir demo_runtime ++ [new_filename demo_ambient])
    = Some (list_byte_of_string "FL")
  ∧ journal out.1
    = journal demo_world_taken
      ++ [FileWritten ("attendance_images/" +:+ new_filename demo_ambient)
            (list_byte_of_string "FL")].
Proof.
  apply (rejected_insert_leaves_file demo_runtime demo_ambient (demo_request "FL")
           (list_byte_of_string "FL") (Some "2024-01-01T10:00:00") demo_world_taken).
  - by apply (demo_submitted "FL").
  - by apply demo_face.
  - reflexivity.
  - apply demo_taken_unmarked.
  - reflexivity.
  - apply list_elem_of_here.
Defined.

Lemma row_requires_checks_witness :
  ∃ b stored,
    submitted_bytes demo_runtime (demo_request "FL") b
    ∧ detectable_face demo_runtime b
    ∧ is_live_bytes demo_runtime b = inr true
    ∧ ¬ marked_on (table empty_world) (date_isoformat (today_gate demo_ambient))
    ∧ bind_timestamp demo_runtime (timestamp_of demo_ambient (demo_request "FL"))
      = inr stored
    ∧ table (mark_attendance demo_runtime demo_ambient (demo_request "FL")
               empty_world).1
      = table empty_world ++ [new_row demo_ambient stored]
    ∧ status (mark_attendance demo_runtime demo_ambient (demo_request "FL")
                empty_world).2 = 200.
Proof.
  apply (row_requires_checks demo_runtime demo_ambient (demo_request "FL") empty_world).
  assert (Ht : table (mark_attendance demo_runtime demo_ambient (demo_request "FL")
                        empty_world).1
               = [new_row demo_ambient (Some "2024-01-01T10:00:00")])
    by (vm_compute; reflexivity).
  rewrite Ht. discriminate.
Defined.




Lemma unique_ids_always_witness :
  unique_ids
    (run demo_runtime [Submit demo_ambient (demo_request "FL");
                       Submit demo_ambient_next_day (demo_request "LF")] empty_world).
Proof.
  apply (unique_ids_always demo_runtime). apply NoDup_nil_2.
Defined.



Lemma default_name_never_marked_witness :
  let w' := run demo_runtime [Submit demo_ambient_later (demo_request "FL")]
              demo_world_taken in
  already_marked_today_default demo_ambient_later w' = (w', inr false).
Proof.
  apply (default_name_never_marked demo_runtime
           [Submit demo_ambient_later (demo_request "FL")] demo_ambient_later
           demo_world_taken).
  intros r Hin. apply list_elem_of_singleton in Hin. by subst r.
Defined.

Lemma other_identifier_keeps_image_witness :
  let w := (mark_attendance demo_runtime demo_ambient (demo_request "FL")
              empty_world).1 in
  let w' := (mark_attendance demo_runtime demo_ambient_next_day (demo_request "LF")
               w).1 in
  serve_image demo_runtime (uuid_hex 0xa1 +:+ ".jpg") w'
  = (w', file_response (list_byte_of_string "FL")).
Proof.
  intros w.
  apply (other_identifier_keeps_image demo_runtime demo_ambient_next_day
           (demo_request "LF") 0xa1 (list_byte_of_string "FL") w).
  - reflexivity.
  - reflexivity.
  - discriminate.
  - vm_compute. reflexivity.
Defined.

Lemma absolute_path_not_found_witness :
  serve_image demo_runtime "/srv/app/attendance_images/a.jpg" demo_world_files
  = (demo_world_files, NotFound).
Proof.
  apply (absolute_path_not_found demo_runtime "/srv/app/attendance_images/a.jpg"
           demo_world_files).
  reflexivity.
Defined.

Lemma other_days_do_not_block_witness :
  mark_attendance demo_runtime demo_ambient_later (demo_request "FL") demo_world_taken
  = (recorded demo_runtime demo_ambient_later (Some "2024-01-01T10:00:00")
       (list_byte_of_string "FL") demo_world_taken,
     success (timestamp_of demo_ambient_later (demo_request "FL"))
             (new_filename demo_ambient_later)).
Proof.
  apply (other_days_do_not_block demo_runtime demo_ambient_later (demo_request "FL")
           (list_byte_of_string "FL") (Some "2024-01-01T10:00:00") demo_world_taken).
  - by apply (demo_submitted "FL").
  - by apply demo_face.
  - reflexivity.
  - reflexivity.
  - intros Hin. apply list_elem_of_singleton in Hin. discriminate Hin.
  - intros r Hin _. apply list_elem_of_singleton in Hin. subst r.
    exists (mk_date 2023 12 31). split; [reflexivity | discriminate].
Defined.

(** ** ISO timestamps in order *)

Local Abbreviation uhd := DecimalNat.Unsigned.hd.
Local Abbreviation utl := DecimalNat.Unsigned.tl.
Local Abbreviation usize := DecimalNat.Unsigned.usize.

Lemma string_of_uint_cons (d : Decimal.uint) :
  d ≠ Decimal.Nil ->
  NilEmpty.string_of_uint d = String (digit_char (uhd d)) (NilEmpty.string_of_uint (utl d)).
Proof. by destruct d. Qed.

Lemma usize_cons (d : Decimal.uint) : d ≠ Decimal.Nil -> usize d = S (usize (utl d)).
Proof. by destruct d. Qed.

Lemma hd_lt_10 (d : Decimal.uint) : (uhd d < 10)%nat.
Proof. destruct d; cbn; lia. Qed.

Lemma of_uint_cons (d : Decimal.uint) :
  d ≠ Decimal.Nil ->
  Nat.of_uint d = (uhd d * 10 ^ usize (utl d) + Nat.of_uint (utl d))%nat.
Proof.
  intros Hd. unfold Nat.of_uint.
  destruct d; try done; cbn [Nat.of_uint_acc DecimalNat.Unsigned.hd DecimalNat.Unsigned.tl];
    rewrite !DecimalNat.Unsigned.of_uint_acc_spec, ?Nat.tail_mul_spec; lia.
Qed.

Lemma of_uint_bound (d : Decimal.uint) : (Nat.of_uint d < 10 ^ usize d)%nat.
Proof.
  induction d; [cbn; lia|..];
    (rewrite of_uint_cons by done; cbn [DecimalNat.Unsigned.hd DecimalNat.Unsigned.tl DecimalNat.Unsigned.usize];
     rewrite Nat.pow_succ_r'; lia).
Qed.

Lemma length_string_of_uint (d : Decimal.uint) :
  String.length (NilEmpty.string_of_uint d) = usize d.
Proof. induction d; cbn; by rewrite ?IHd. Qed.

Lemma ascii_compare_digit (k k' : nat) :
  (k < 10)%nat -> (k' < 10)%nat ->
  Ascii.compare (digit_char k) (digit_char k') = Nat.compare k k'.
Proof.
  intros Hk Hk'.
  do 10 (destruct k as [|k]; [do 10 (destruct k' as [|k']; [reflexivity|]); lia|]). lia.
Qed.

Lemma compare_scaled (P k k' x y : nat) :
  (x < P)%nat -> (y < P)%nat ->
  Nat.compare (k * P + x) (k' * P + y)
  = match Nat.compare k k' with Eq => Nat.compare x y | c => c end.
Proof.
  intros Hx Hy.
  destruct (Nat.compare_spec k k') as [->|Hlt|Hgt].
  - destruct (Nat.compare_spec x y); [apply Nat.compare_eq_iff | apply Nat.compare_lt_iff | apply Nat.compare_gt_iff]; lia.
  - apply Nat.compare_lt_iff. nia.
  - apply Nat.compare_gt_iff. nia.
Qed.

Lemma compare_string_of_uint (d d' : Decimal.uint) :
  usize d = usize d' ->
  String.compare (NilEmpty.string_of_uint d) (NilEmpty.string_of_uint d')
  = Nat.compare (Nat.of_uint d) (Nat.of_uint d').
Proof.
  revert d'. induction d as [|d IH|d IH|d IH|d IH|d IH|d IH|d IH|d IH|d IH|d IH];
    intros d' Hsize.
  1: { destruct d'; try discriminate. reflexivity. }
  all: assert (Hd' : d' ≠ Decimal.Nil) by (intros ->; discriminate);
    rewrite (string_of_uint_cons d'), (of_uint_cons d') by done;
    rewrite string_of_uint_cons, of_uint_cons by done;
    rewrite (usize_cons d') in Hsize by done;
    cbn [DecimalNat.Unsigned.usize DecimalNat.Unsigned.hd DecimalNat.Unsigned.tl] in *; injection Hsize as Hsize;
    cbn [String.compare];
    rewrite ascii_compare_digit by (apply hd_lt_10 || lia).
  all: rewrite <- Hsize;
    (rewrite compare_scaled;
      [ | apply of_uint_bound | rewrite Hsize; apply of_uint_bound ]);
    by rewrite <- IH.
Qed.

(** A normalised numeral is zero or begins with a digit other than 0. *)
Lemma normal_head (d : Decimal.uint) :
  Decimal.unorm d = d -> d = Decimal.D0 Decimal.Nil ∨ (1 ≤ uhd d)%nat.
Proof.
  intros Hn. destruct d; cbn [DecimalNat.Unsigned.hd]; try (right; lia).
  - by apply DecimalFacts.unorm_nonnil in Hn.
  - left. rewrite DecimalFacts.unorm_D0 in Hn. unfold Decimal.unorm in Hn.
    destruct (Decimal.nzhead d) eqn:Hz; try done.
    all: exfalso; revert Hz; rewrite Hn; apply DecimalFacts.nzhead_nonzero.
Qed.

Lemma usize_to_uint (w a : nat) :
  (1 ≤ w)%nat -> (a < 10 ^ w)%nat -> (usize (Nat.to_uint a) ≤ w)%nat.
Proof.
  intros Hw Ha.
  pose proof (DecimalNat.Unsigned.of_to a) as Hval.
  destruct (normal_head (Nat.to_uint a) (to_uint_normal a)) as [-> | Hhd];
    [cbn; lia|].
  assert (Hnn : Nat.to_uint a ≠ Decimal.Nil) by (intros Heq; rewrite Heq in Hhd; cbn in Hhd; lia).
  rewrite of_uint_cons in Hval by done. rewrite usize_cons by done.
  destruct (Nat.le_gt_cases (S (usize (utl (Nat.to_uint a)))) w) as [?|Hbig]; [done|].
  exfalso.
  assert (10 ^ w ≤ 10 ^ usize (utl (Nat.to_uint a)))%nat
    by (apply Nat.pow_le_mono_r; lia).
  nia.
Qed.

Lemma usize_iter_D0 (k : nat) (d : Decimal.uint) :
  usize (Nat.iter k Decimal.D0 d) = (k + usize d)%nat.
Proof. induction k as [|k IH]; [done|]. cbn. by rewrite <- IH. Qed.

Lemma of_uint_iter_D0 (k : nat) (d : Decimal.uint) :
  Nat.of_uint (Nat.iter k Decimal.D0 d) = Nat.of_uint d.
Proof.
  rewrite <- DecimalNat.Unsigned.of_uint_norm, DecimalFacts.unorm_iter_D0. apply DecimalNat.Unsigned.of_uint_norm.
Qed.

(** Zero-padded to [w] digits, numbers below [10^w] compare as text the way
    they compare as numbers. *)
Lemma zero_pad_compare (w a b : nat) :
  (1 ≤ w)%nat -> (a < 10 ^ w)%nat -> (b < 10 ^ w)%nat ->
  String.compare (zero_pad w a) (zero_pad w b) = Nat.compare a b.
Proof.
  intros Hw Ha Hb. unfold zero_pad.
  rewrite !string_of_to_uint, !concat_zeros, compare_string_of_uint.
  - by rewrite !of_uint_iter_D0, !DecimalNat.Unsigned.of_to.
  - rewrite !usize_iter_D0, !length_string_of_uint.
    pose proof (usize_to_uint w a Hw Ha). pose proof (usize_to_uint w b Hw Hb). lia.
Qed.

Lemma zero_pad_length (w a : nat) :
  (1 ≤ w)%nat -> (a < 10 ^ w)%nat -> String.length (zero_pad w a) = w.
Proof.
  intros Hw Ha. unfold zero_pad.
  rewrite !string_of_to_uint, !concat_zeros, length_string_of_uint.
  rewrite usize_iter_D0, length_string_of_uint.
  pose proof (usize_to_uint w a Hw Ha). lia.
Qed.


Lemma compare_app_same_length (a b x y : string) :
  String.length a = String.length b ->
  String.compare (a +:+ x) (b +:+ y)
  = lex_then (String.compare a b) (String.compare x y).
Proof.
  revert b. induction a as [|c a IH]; intros [|c' b] Hlen; try discriminate.
  - reflexivity.
  - injection Hlen as Hlen.
    change (String c a +:+ x) with (String c (a +:+ x)).
    change (String c' b +:+ y) with (String c' (b +:+ y)).
    cbn [String.compare]. rewrite (IH b Hlen).
    by destruct (Ascii.compare c c').
Qed.

Lemma compare_same_head (c : ascii) (x y : string) :
  String.compare (String c x) (String c y) = String.compare x y.
Proof.
  cbn [String.compare]. unfold Ascii.compare. by rewrite N.compare_refl.
Qed.

Lemma fraction_compare (a b : nat) :
  (a < 10 ^ 6)%nat -> (b < 10 ^ 6)%nat ->
  String.compare (if Nat.eqb a 0 then "" else "." +:+ zero_pad 6 a)
                 (if Nat.eqb b 0 then "" else "." +:+ zero_pad 6 b)
  = Nat.compare a b.
Proof.
  intros Ha Hb.
  destruct (Nat.eqb_spec a 0) as [->|Hna], (Nat.eqb_spec b 0) as [->|Hnb].
  - reflexivity.
  - symmetry. apply Nat.compare_lt_iff. lia.
  - symmetry. apply Nat.compare_gt_iff. lia.
  - change ("." +:+ ?s) with (String "."%char s).
    rewrite compare_same_head. apply zero_pad_compare; lia.
Qed.

Lemma datetime_isoformat_compare (t1 t2 : datetime) :
  printable t1 -> printable t2 ->
  String.compare (datetime_isoformat t1) (datetime_isoformat t2)
  = datetime_compare t1 t2.
Proof.
  intros (Hy1 & Hm1 & Hd1 & Hh1 & Hi1 & Hs1 & Hu1) (Hy2 & Hm2 & Hd2 & Hh2 & Hi2 & Hs2 & Hu2).
  unfold datetime_isoformat, datetime_compare.
  change (?a +:+ "-" +:+ ?b +:+ "-" +:+ ?c +:+ "T" +:+ ?d +:+ ":" +:+ ?e +:+ ":" +:+ ?f +:+ ?g)
    with (a +:+ String "-" (b +:+ String "-" (c +:+ String "T"
            (d +:+ String ":" (e +:+ String ":" (f +:+ g)))))).
  repeat (rewrite compare_app_same_length by (rewrite !zero_pad_length; lia);
          rewrite zero_pad_compare by lia;
          rewrite ?compare_same_head).
  by rewrite fraction_compare.
Qed.

Lemma strongly_sorted_weaken {A} (R R' : A -> A -> Prop) (l : list A) :
  (∀ x y, R x y -> R' x y) -> StronglySorted R l -> StronglySorted R' l.
Proof.
  intros Himp. induction 1 as [|x l Hl IH Hall]; constructor; [done|].
  eapply Forall_impl; [exact Hall|]. intros y. apply Himp.
Qed.

(** X19.  Text order on [isoformat] timestamps is chronological order, so in
    the listing of [get_recent_attendance] any two rows whose timestamps are
    [datetime.isoformat()] texts, such as the ones the server stamps when the
    client sends none, stand newest first: the later-listed instant is not
    after the earlier-listed one. *)
Theorem stamped_rows_listed_chronologically (w : world) :
  ∃ rows,
    get_recent_attendance w = (w, jsonify (JArr (recent_item <$> rows)) 200)
    ∧ StronglySorted
        (fun a b =>
           ∀ ta tb,
             printable ta -> printable tb ->
             timestamp a = Some (datetime_isoformat ta) ->
             timestamp b = Some (datetime_isoformat tb) ->
             datetime_compare tb ta ≠ Gt)
        rows.
Proof.
  exists (take 10 (order_by_timestamp_desc (table w))). split.
  - unfold get_recent_attendance, try_except, io_bind, io_get, io_ret.
    rewrite select_recent_rows, <- list_fmap_compose. reflexivity.
  - pose proof (order_by_sorted (table w)) as Hs.
    rewrite <- (take_drop 10 (order_by_timestamp_desc (table w))) in Hs.
    apply StronglySorted_app_1_l in Hs.
    eapply strongly_sorted_weaken; [|exact Hs].
    intros a b Hab ta tb Hpa Hpb Ha Hb.
    unfold not_older in Hab. rewrite Ha, Hb in Hab.
    cbn [sql_leb] in Hab. unfold String.leb in Hab.
    rewrite datetime_isoformat_compare in Hab by done.
    by destruct (datetime_compare tb ta).
Qed.
